(** * flambe: the experiment scheduler and the path helpers

    A shallow embedding of [flambe/experiment/experiment.py] (the class
    [Experiment]: its constructor and [run]) and of
    [flambe/utils/path.py] ([rel_to_abs_paths]), followed by the properties
    of the scheduler's dispatch loop and of the path conversion.

    Python dictionaries keep insertion order and [run] depends on it (the
    order of [pipeline.schemas.items()] and of [stage_to_id.values()]), so
    a [dict] with string keys is an association list whose keys are
    pairwise distinct.  The per-stage maps that [run] only reads with
    [.get] are finite maps. *)

From stdpp Require Import gmap strings list fin_maps.


(** ** Python dictionaries with string keys *)

Module PyDict.

Section Ops.
Context {V : Type}.

(** [d.get(k)] : the value stored under [k], if any. *)
Fixpoint get (k : string) (d : list (string * V)) : option V :=
  match d with
  | [] => None
  | (k', v) :: d' => if decide (k = k') then Some v else get k d'
  end.

(** [d[k] = v] : an existing key keeps its position, a new key is
    appended. *)
Fixpoint set (k : string) (v : V) (d : list (string * V))
  : list (string * V) :=
  match d with
  | [] => [(k, v)]
  | (k', v') :: d' =>
      if decide (k = k') then (k, v) :: d' else (k', v') :: set k v d'
  end.

Definition keys (d : list (string * V)) : list string := d.*1.
Definition values (d : list (string * V)) : list V := d.*2.
Definition len (d : list (string * V)) : nat := length d.

(** The invariant of a dictionary: no key occurs twice. *)
Definition wf (d : list (string * V)) : Prop := NoDup (keys d).
End Ops.

End PyDict.

(** ** [flambe/utils/path.py] *)

Module Path.

(** Dictionaries are mutable objects: a variable holds a reference into
    a store of dictionaries, and [d.copy()] allocates a new one. *)
Abbreviation Ref := nat (only parsing).
Abbreviation Store := (list (list (string * string))) (only parsing).

Definition alloc (d : list (string * string)) (s : Store) : Ref * Store :=
  (length s, s ++ [d]).

Definition setitem (r : Ref) (k v : string) (s : Store) : Store :=
  match s !! r with
  | Some d => <[r := PyDict.set k v d]> s
  | None => s
  end.

Section WithOsPath.
(** [os.path.exists], [os.path.isabs] and [os.path.abspath]. *)
Variable os_path_exists : string → bool.
Variable os_path_isabs : string → bool.
Variable os_path_abspath : string → string.

(** The loop [for k, v in ret.items(): ...].  [ret.items()] is a live
    view: the item at position [i] is read from the dictionary as it
    is when the iteration reaches it. *)
Fixpoint items_loop (todo i : nat) (ret : Ref) (s : Store) : Store :=
  match todo with
  | O => s
  | S todo' =>
      match s !! ret ≫= (λ d, d !! i) with
      | Some (k, v) =>
          let s' :=
            if os_path_exists v && negb (os_path_isabs v)
            then setitem ret k (os_path_abspath v) s
            else s in
          items_loop todo' (S i) ret s'
      | None => s
      end
  end.

(** [rel_to_abs_paths(d)] : the reference returned and the store
    afterwards; [None] only for a dangling [d]. *)
Definition rel_to_abs_paths (d : Ref) (s : Store) : option (Ref * Store) :=
  match s !! d with
  | Some dict =>
      let '(ret, s1) := alloc dict s in
      Some (ret, items_loop (PyDict.len dict) 0 ret s1)
  | None => None
  end.
End WithOsPath.

End Path.

(** ** [flambe/utils/path.py]: the helpers around the file system *)

Module PathUtils.

(** The exceptions these helpers raise or let through. *)
Inductive Error :=
| ValueError (msg : string)
| OSError (path : string).

Inductive Res (A : Type) :=
| Return (a : A)
| Raise (e : Error).
Arguments Return {A} a.
Arguments Raise {A} e.

(** [s.startswith(p)] and [s.endswith(suf)]. *)
Definition startswith (s p : string) : bool := String.prefix p s.

Fixpoint endswith (s suf : string) : bool :=
  if String.eqb s suf then true
  else match s with
       | EmptyString => false
       | String _ s' => endswith s' suf
       end.

(** [is_dev_mode()], on the lines [x] that [freeze.freeze()] yields: the
    loop returns [True] at the first line of an editable flambe. *)
Fixpoint is_dev_mode (x : list string) : bool :=
  match x with
  | [] => false
  | pkg :: x' =>
      if startswith pkg "-e" && endswith pkg "egg=flambe" then true
      else is_dev_mode x'
  end.

Section RepoLocation.
(** [flambe.__file__], [os.path.join] and [os.path.abspath]; [os.pardir]
    is [".."]. *)
Variable flambe_file : string.
Variable os_path_join : string → list string → string.
Variable os_path_abspath : string → string.

(** [get_flambe_repo_location()], on the lines of [freeze.freeze()]. *)
Definition get_flambe_repo_location (x : list string) : Res string :=
  if negb (is_dev_mode x)
  then Raise (ValueError
                "Flambe repo can't be located as it was not                           installed in editable mode")
  else
    let repo_location := os_path_join flambe_file [".."; ".."] in
    Return (os_path_abspath repo_location).
End RepoLocation.

Section Files.
(** [os.path.exists], [os.path.isdir], [os.path.islink],
    [os.path.getsize] (which raises [OSError]), [os.walk] (which raises
    nothing) and [os.path.join], on one state of the file system. *)
Variable os_path_exists : string → bool.
Variable os_path_isdir : string → bool.
Variable os_path_islink : string → bool.
Variable os_path_getsize : string → Res Z.
Variable os_walk : string → list (string * list string * list string).
Variable os_path_join : string → string → string.

(** The constant [MB] of [flambe.const], and the division [accum / MB],
    whose result is a float. *)
Variable MB : Z.
Variable Float : Type.
Variable truediv : Z → Z → Float.

(** [get_files(path)]: the check is made when the function is called; the
    generator it returns is given by the paths it yields. *)
Definition get_files (path : string) : Res (list string) :=
  if negb (os_path_exists path)
  then Raise (ValueError (path +:+ " does not exist"))
  else Return
         ('(dirpath, dirnames, filenames) ← os_walk path;
          os_path_join dirpath <$> filenames).

(** The loop [for fp in get_files(path): ...] of [get_size_MB]. *)
Fixpoint accum_sizes (fps : list string) (accum : Z) : Res Z :=
  match fps with
  | [] => Return accum
  | fp :: fps' =>
      if os_path_exists fp && negb (os_path_islink fp)
      then match os_path_getsize fp with
           | Return n => accum_sizes fps' (accum + n)
           | Raise e => Raise e
           end
      else accum_sizes fps' accum
  end.

(** [get_size_MB(path)] *)
Definition get_size_MB (path : string) : Res Float :=
  let accum :=
    if os_path_isdir path
    then match get_files path with
         | Return fps => accum_sizes fps 0
         | Raise e => Raise e
         end
    else os_path_getsize path in
  match accum with
  | Return n => Return (truediv n MB)
  | Raise e => Raise e
  end.

(** [is_pip_installable(folder)], with [os.listdir], which raises
    [OSError] on what is no directory. *)
Variable os_listdir : string → Res (list string).

Definition is_pip_installable (folder : string) : Res bool :=
  if negb (os_path_exists folder) then Return false
  else match os_listdir folder with
       | Return files =>
           if bool_decide ("setup.py" ∈ files)
              || bool_decide ("pyproject.toml" ∈ files)
           then Return true
           else Return false
       | Raise e => Raise e
       end.
End Files.

Section SystemReqs.
(** The file system is a state: the queries read it and [os.mkdir]
    changes it or raises. *)
Variable FS : Type.
Variable os_path_exists : FS → string → bool.
Variable os_path_isdir : FS → string → bool.
Variable os_path_islink : FS → string → bool.
Variable os_path_getsize : FS → string → Res Z.
Variable os_walk : FS → string → list (string * list string * list string).
Variable os_path_join : string → string → string.
Variable os_mkdir : string → FS → Res FS.

(** The constants of [flambe.const] and of [colorama]; the comparison
    with [WARN_LIMIT_MB] and its rendering in the message. *)
Variable FLAMBE_GLOBAL_FOLDER : string.
Variable MB : Z.
Variable Float : Type.
Variable truediv : Z → Z → Float.
Variable gt_WARN_LIMIT_MB : Float → bool.
Variable str_WARN_LIMIT_MB : string.
Variable Fore_YELLOW : string.
Variable Style_RESET_ALL : string.

(** The messages passed to [logger.info] when the extensions folder is
    large. *)
Definition size_warning (extensions_folder : string) : list string :=
  [ Fore_YELLOW;
    "Be aware that your extensions cache for github extensions "
      +:+ "              located in " +:+ extensions_folder
      +:+ " is increasing its size "
      +:+ "              (it's currently bigger than "
      +:+ str_WARN_LIMIT_MB +:+ " MB).";
    "Please remove unused extensions from that location.";
    Style_RESET_ALL ].

(** [check_system_reqs()]: the result, the file system afterwards and the
    messages logged. *)
Definition check_system_reqs (fs : FS) : Res unit * FS * list string :=
  match (if negb (os_path_exists fs FLAMBE_GLOBAL_FOLDER)
         then os_mkdir FLAMBE_GLOBAL_FOLDER fs
         else Return fs) with
  | Raise e => (Raise e, fs, [])
  | Return fs1 =>
      let extensions_folder :=
        os_path_join FLAMBE_GLOBAL_FOLDER "extensions" in
      if os_path_exists fs1 extensions_folder
      then match get_size_MB (os_path_exists fs1) (os_path_isdir fs1)
                   (os_path_islink fs1) (os_path_getsize fs1) (os_walk fs1)
                   os_path_join MB Float truediv extensions_folder with
           | Return size =>
               if gt_WARN_LIMIT_MB size
               then (Return (), fs1, size_warning extensions_folder)
               else (Return (), fs1, [])
           | Raise e => (Raise e, fs1, [])
           end
      else (Return (), fs1, [])
  end.
End SystemReqs.

End PathUtils.

(** ** [flambe/experiment/experiment.py]: the collaborators *)

(** Modelled from the spec: [flambe.compile.Schema] is not among the
    sources.  A stage definition "may reference other stages by name to
    form a dependency edge (a link)"; the scheduler sees nothing else of
    it. *)
Record Schema := { links : list string }.

(** A search algorithm is an opaque object that [run] never inspects. *)
Inductive Algorithm := AlgorithmObj (ident : string).

(** Modelled from the spec: [flambe.runner.runnable.Environment] is not
    among the sources.  It is the "read-only (output path, debug flag)
    bundle"; built from an output path alone it is not in debug mode. *)
Record Environment := { output_path : string; debug : bool }.

Definition Environment_new (path : string) : Environment :=
  {| output_path := path; debug := false |}.

(** Exceptions that reach the caller of [run], and results of calls that
    may raise. *)
Inductive Exn :=
| KeyError (key : string)
| UnknownStageError (stage : string).

Inductive Result (A : Type) :=
| Returned (a : A)
| Raised (e : Exn).
Arguments Returned {A} a.
Arguments Raised {A} e.

(** Modelled from the spec: [flambe.experiment.pipeline.Pipeline] is not
    among the sources.  It is an "ordered mapping from stage name to a
    stage definition" whose [schemas] are iterated "in declaration
    order". *)
Record Pipeline := { schemas : list (string * Schema) }.

Definition Pipeline_new (d : list (string * Schema)) : Pipeline :=
  {| schemas := d |}.

(** Modelled from the spec: the immediate dependencies of a stage are the
    "dependency names referenced directly by [name]'s definition
    (duplicates removed, first-seen order preserved)". *)
Fixpoint first_seen (seen l : list string) : list string :=
  match l with
  | [] => []
  | x :: l' =>
      if bool_decide (x ∈ seen) then first_seen seen l'
      else x :: first_seen (x :: seen) l'
  end.

Definition immediate_dependencies (s : Schema) : list string :=
  first_seen [] (links s).

(** The per-stage view handed to a stage: the stage it is rooted at and
    the names of its immediate dependencies.  (The stage definitions of
    the dependency closure, which [run] only passes on, are left out.) *)
Record SubPipeline := { target : string; dependencies : list string }.

(** Modelled from the spec: [Pipeline.sub_pipeline] "fails with
    [UnknownStageError] if [name] is absent". *)
Definition sub_pipeline (p : Pipeline) (stage : string) : Result SubPipeline :=
  match PyDict.get stage (schemas p) with
  | Some s => Returned {| target := stage;
                          dependencies := immediate_dependencies s |}
  | None => Raised (UnknownStageError stage)
  end.

(** ** The execution substrate (Ray), as [run] uses it *)

(** Object ids are opaque; the substrate numbers them in order of
    submission. *)
Abbreviation ObjectID := nat (only parsing).

(** The keyword arguments with which a [Stage] actor is constructed. *)
Record StageArgs := {
  st_name : string;
  st_pipeline : SubPipeline;
  st_reductions : option Z;
  st_dependencies : list ObjectID;
  st_cpus_per_trial : option Z;
  st_gpus_per_trial : option Z;
  st_environment : Environment
}.

(** The handle of a remote [Stage] actor. *)
Record Actor := { actor_id : nat; actor_args : StageArgs }.

(** What the work behind an object id resolves to. *)
Inductive Outcome :=
| Succeeded
| Failed (err : string).

(** The part of the substrate's state that [run] can change: whether and
    how it was initialised, the actors created and, per object id, what
    the task that produces it resolves to. *)
Record Ray := {
  initialized : option (string * bool);
  actors : list StageArgs;
  objects : list Outcome
}.

(** The calls of [run] on the substrate, and its stores into
    [stage_to_id], in program order. *)
Inductive Event :=
| EvInit (address : string) (local_mode : bool)
| EvRemote (stage : Actor)
| EvRun (stage : Actor) (object_id : ObjectID)
| EvStore (stage : string) (object_id : ObjectID)
| EvWait (object_ids : list ObjectID) (num_returns : nat).

(** ** The [Experiment] object *)

Record Experiment := {
  name : string;
  save_path : string;
  pipeline : list (string * Schema);
  algorithm : list (string * Algorithm);
  reduce : gmap string Z;
  cpus_per_trial : gmap string Z;
  gpus_per_trial : gmap string Z
}.

(** [Experiment.__init__]: an omitted argument is [None]; [save_path]
    defaults to ['flambe_output']. *)
Definition __init__
    (name : string)
    (save_path : option string)
    (pipeline : option (list (string * Schema)))
    (algorithm : option (list (string * Algorithm)))
    (reduce : option (gmap string Z))
    (cpus_per_trial gpus_per_trial : option (gmap string Z)) : Experiment :=
  {| name := name;
     save_path := default "flambe_output" save_path;
     pipeline := match pipeline with Some p => p | None => [] end;
     algorithm := match algorithm with Some a => a | None => [] end;
     reduce := match reduce with Some r => r | None => ∅ end;
     cpus_per_trial := ∅;
     gpus_per_trial := ∅ |}.

(** ** The state threaded through [run] *)

(** [run] executes against the [Experiment] object it is called on and
    the substrate; it returns or raises, and leaves a trace of events. *)
Record World := { self : Experiment; ray : Ray }.

Definition M (A : Type) : Type := World → Result A * World * list Event.

#[global] Instance M_ret : MRet M := λ A a w, (Returned a, w, []).

#[global] Instance M_bind : MBind M := λ A B f m w,
  match m w with
  | (Returned a, w1, t1) =>
      let '(r, w2, t2) := f a w1 in (r, w2, t1 ++ t2)
  | (Raised e, w1, t1) => (Raised e, w1, t1)
  end.

Definition lift {A : Type} (r : Result A) : M A := λ w, (r, w, []).

Definition get_self : M Experiment := λ w, (Returned (self w), w, []).

Definition emit (e : Event) : M unit := λ w, (Returned (), w, [e]).

Section Scheduler.

(** What the work of a stage, once run by the substrate, resolves to.
    [flambe.experiment.stage.Stage] is not among the sources and its
    work is opaque to the scheduler. *)
Variable Stage_run : StageArgs → Outcome.

(** [ray.is_initialized()] *)
Definition ray_is_initialized : M bool :=
  λ w, (Returned (bool_decide (is_Some (initialized (ray w)))), w, []).

(** [ray.init(address, local_mode=...)] *)
Definition ray_init (address : string) (local_mode : bool) : M unit :=
  λ w, (Returned (),
        {| self := self w;
           ray := {| initialized := Some (address, local_mode);
                     actors := actors (ray w);
                     objects := objects (ray w) |} |},
        [EvInit address local_mode]).

(** [ray.remote(Stage).remote(...)]: creates the actor and returns its
    handle at once. *)
Definition ray_remote_Stage (args : StageArgs) : M Actor :=
  λ w, let a := {| actor_id := length (actors (ray w));
                   actor_args := args |} in
       (Returned a,
        {| self := self w;
           ray := {| initialized := initialized (ray w);
                     actors := actors (ray w) ++ [args];
                     objects := objects (ray w) |} |},
        [EvRemote a]).

(** [stage.run.remote()]: submits the stage's work and returns a new
    object id at once; the object resolves to the outcome of the
    work. *)
Definition stage_run_remote (stage : Actor) : M ObjectID :=
  λ w, let object_id := length (objects (ray w)) in
       (Returned object_id,
        {| self := self w;
           ray := {| initialized := initialized (ray w);
                     actors := actors (ray w);
                     objects := objects (ray w)
                                  ++ [Stage_run (actor_args stage)] |} |},
        [EvRun stage object_id]).

(** [ray.wait(object_ids, num_returns=n)]: blocks until [n] of the
    objects have resolved, successfully or not, and returns the ready
    ids and the remaining ones.  It raises nothing for a task that
    failed. *)
Definition ray_wait (object_ids : list ObjectID) (num_returns : nat)
  : M (list ObjectID * list ObjectID) :=
  λ w, (Returned (take num_returns object_ids, drop num_returns object_ids),
        w, [EvWait object_ids num_returns]).

(** ** [Experiment.run] *)

(** [[stage_to_id[d] for d in sub_pipeline.dependencies]]: the first
    missing key raises [KeyError]. *)
Fixpoint depedency_ids (stage_to_id : list (string * ObjectID))
    (ds : list string) : Result (list ObjectID) :=
  match ds with
  | [] => Returned []
  | d :: ds' =>
      match PyDict.get d stage_to_id with
      | None => Raised (KeyError d)
      | Some object_id =>
          match depedency_ids stage_to_id ds' with
          | Returned ids => Returned (object_id :: ids)
          | Raised e => Raised e
          end
      end
  end.

(** The body of the loop for one [(name, schema)] item; it returns
    [stage_to_id] after the store. *)
Definition run_stage (pipeline : Pipeline) (env : Environment)
    (name : string) (stage_to_id : list (string * ObjectID))
  : M (list (string * ObjectID)) :=
  sub ← lift (sub_pipeline pipeline name);
  ids ← lift (depedency_ids stage_to_id (dependencies sub));
  self ← get_self;
  stage ← ray_remote_Stage
            {| st_name := name;
               st_pipeline := sub;
               st_reductions := reduce self !! name;
               st_dependencies := ids;
               st_cpus_per_trial := cpus_per_trial self !! name;
               st_gpus_per_trial := gpus_per_trial self !! name;
               st_environment := env |};
  object_id ← stage_run_remote stage;
  _ ← emit (EvStore name object_id);
  mret (PyDict.set name object_id stage_to_id).

(** [for name, schema in pipeline.schemas.items(): ...] *)
Fixpoint run_loop (pipeline : Pipeline) (env : Environment)
    (items : list (string * Schema)) (stage_to_id : list (string * ObjectID))
  : M (list (string * ObjectID)) :=
  match items with
  | [] => mret stage_to_id
  | (name, _) :: items' =>
      stage_to_id' ← run_stage pipeline env name stage_to_id;
      run_loop pipeline env items' stage_to_id'
  end.

(** [run(self, env=None)]; it returns [None]. *)
Definition run (env : option Environment) : M unit :=
  self ← get_self;
  let env := match env with
             | Some e => e
             | None => Environment_new (save_path self)
             end in
  is_init ← ray_is_initialized;
  _ ← (if negb is_init then ray_init "auto" (debug env) else mret ());
  self ← get_self;
  let pipeline := Pipeline_new (pipeline self) in
  stage_to_id ← run_loop pipeline env (schemas pipeline) [];
  _ ← ray_wait (PyDict.values stage_to_id) (PyDict.len stage_to_id);
  mret ().

End Scheduler.

(** ** Vocabulary of the properties *)

(** The declaration order is a topological order of the dependency graph:
    every immediate dependency of a stage is declared before the stage.
    [seen] holds the names declared so far. *)
Fixpoint topological (seen : list string) (items : list (string * Schema))
  : bool :=
  match items with
  | [] => true
  | (stage, s) :: items' =>
      forallb (λ d, bool_decide (d ∈ seen)) (immediate_dependencies s)
      && topological (seen ++ [stage]) items'
  end.

(** The dispatch calls of a trace, with the object id each returned. *)
Definition runs (tr : list Event) : list (Actor * ObjectID) :=
  omap (λ e, match e with EvRun a h => Some (a, h) | _ => None end) tr.

(** The names of the stages dispatched in a trace, in order. *)
Definition dispatched (tr : list Event) : list string :=
  (λ p, st_name (actor_args p.1)) <$> runs tr.

(** The stores into [stage_to_id] of a trace, in order. *)
Definition stores (tr : list Event) : list (string * ObjectID) :=
  omap (λ e, match e with EvStore n h => Some (n, h) | _ => None end) tr.

(** The calls that suspend the caller until remote work has resolved. *)
Definition blocking (e : Event) : bool :=
  match e with
  | EvWait _ _ => true
  | _ => false
  end.

(** An event of the dispatch loop of an experiment: an actor is created
    for a stage with the experiment's entries for that stage and the
    given environment, its work is submitted, or its object id is
    stored. *)
Definition loop_event (e : Experiment) (env : Environment) (ev : Event)
  : Prop :=
  match ev with
  | EvRemote a | EvRun a _ =>
      st_reductions (actor_args a) = reduce e !! st_name (actor_args a)
      ∧ st_cpus_per_trial (actor_args a)
          = cpus_per_trial e !! st_name (actor_args a)
      ∧ st_gpus_per_trial (actor_args a)
          = gpus_per_trial e !! st_name (actor_args a)
      ∧ st_environment (actor_args a) = env
  | EvStore _ _ => True
  | EvInit _ _ | EvWait _ _ => False
  end.

(** Replaying a trace against the table of object ids stored so far:
    every dispatch passes, for the dependencies of its sub-pipeline and in
    their order, the object ids the table holds, and every store is for a
    name the table does not hold yet. *)
Fixpoint replay (table : list (string * ObjectID)) (tr : list Event) : Prop :=
  match tr with
  | [] => True
  | EvRun a _ :: tr' =>
      Forall2 (λ d id, PyDict.get d table = Some id)
        (dependencies (st_pipeline (actor_args a)))
        (st_dependencies (actor_args a))
      ∧ replay table tr'
  | EvStore n h :: tr' =>
      (n ∉ PyDict.keys table) ∧ replay (table ++ [(n, h)]) tr'
  | _ :: tr' => replay table tr'
  end.

(** Two substrate states that differ at most in what their objects
    resolve to. *)
Definition same_shape (r1 r2 : Ray) : Prop :=
  initialized r1 = initialized r2
  ∧ actors r1 = actors r2
  ∧ length (objects r1) = length (objects r2).

(** The keyword arguments [run] builds for the stage [stage] of definition
    [s], given the object ids of its dependencies. *)
Definition stage_args (e : Experiment) (env : Environment) (stage : string)
    (s : Schema) (ids : list ObjectID) : StageArgs :=
  {| st_name := stage;
     st_pipeline := {| target := stage;
                       dependencies := immediate_dependencies s |};
     st_reductions := reduce e !! stage;
     st_dependencies := ids;
     st_cpus_per_trial := cpus_per_trial e !! stage;
     st_gpus_per_trial := gpus_per_trial e !! stage;
     st_environment := env |}.

(** The world after the actor of a stage was created and its work
    submitted. *)
Definition after_dispatch (out : Outcome) (args : StageArgs) (w : World)
  : World :=
  {| self := self w;
     ray := {| initialized := initialized (ray w);
               actors := actors (ray w) ++ [args];
               objects := objects (ray w) ++ [out] |} |}.

(** The environment [run] works with. *)
Definition run_environment (env : option Environment) (e : Experiment)
  : Environment :=
  match env with
  | Some env' => env'
  | None => Environment_new (save_path e)
  end.

(** The world when [run] enters its loop, and the events up to there. *)
Definition loop_entry (env : Environment) (w : World) : World :=
  match initialized (ray w) with
  | Some _ => w
  | None =>
      {| self := self w;
         ray := {| initialized := Some ("auto", debug env);
                   actors := actors (ray w);
                   objects := objects (ray w) |} |}
  end.

Definition entry_events (env : Environment) (w : World) : list Event :=
  match initialized (ray w) with
  | Some _ => []
  | None => [EvInit "auto" (debug env)]
  end.

(** The actors created in a trace, in order. *)
Definition created (tr : list Event) : list Actor :=
  omap (λ e, match e with EvRemote a => Some a | _ => None end) tr.

(** What [rel_to_abs_paths] makes of one item: an existing relative path
    becomes absolute, any other value stays. *)
Definition abs_item (os_path_exists os_path_isabs : string → bool)
    (os_path_abspath : string → string) (kv : string * string)
  : string * string :=
  (kv.1,
   if os_path_exists kv.2 && negb (os_path_isabs kv.2)
   then os_path_abspath kv.2 else kv.2).

(** The bytes a walked path adds to the size of a directory: those of an
    existing path that is no link. *)
Definition counted_size (os_path_exists os_path_islink : string → bool)
    (os_path_getsize : string → PathUtils.Res Z) (fp : string) : Z :=
  if os_path_exists fp && negb (os_path_islink fp)
  then match os_path_getsize fp with
       | PathUtils.Return n => n
       | PathUtils.Raise _ => 0
       end
  else 0.

(** The line of [pip freeze] for an editable install of flambe. *)
Definition editable_flambe (pkg : string) : Prop :=
  (∃ r, pkg = "-e" +:+ r) ∧ (∃ l, pkg = l +:+ "egg=flambe").

(** ** Example inputs *)

(** A substrate that was not initialised and has run nothing. *)
Definition fresh_ray : Ray :=
  {| initialized := None; actors := []; objects := [] |}.

(** The pipeline [{A: no deps, B: depends on A, C: depends on A}]. *)
Definition fan_out : list (string * Schema) :=
  [("A", {| links := [] |});
   ("B", {| links := ["A"] |});
   ("C", {| links := ["A"] |})].

(** The pipeline [{X: depends on Y}] declared in the order [X, Y]. *)
Definition misordered : list (string * Schema) :=
  [("X", {| links := ["Y"] |}); ("Y", {| links := [] |})].

Definition world_of (p : list (string * Schema)) (r : Ray) : World :=
  {| self := __init__ "exp" None (Some p) None None None None; ray := r |}.

(** * Properties *)

(** ** Dictionaries *)

Section PyDictFacts.
Context {V : Type}.
Implicit Types (d : list (string * V)) (k : string) (v : V).

Lemma get_Some_elem k v d : PyDict.get k d = Some v → (k, v) ∈ d.
Proof.
  induction d as [|[k' v'] d IH]; simpl; [done|].
  destruct (decide (k = k')) as [->|Hne]; intros Hg.
  - injection Hg as ->. left.
  - right. auto.
Qed.

Lemma get_None_keys k d : PyDict.get k d = None ↔ k ∉ PyDict.keys d.
Proof.
  unfold PyDict.keys.
  induction d as [|[k' v'] d IH]; simpl.
  - split; [intros _; apply not_elem_of_nil | done].
  - rewrite not_elem_of_cons. case_decide; subst.
    + split; [done | intros [? _]; done].
    + rewrite IH. tauto.
Qed.

Lemma get_is_Some_keys k d : is_Some (PyDict.get k d) ↔ k ∈ PyDict.keys d.
Proof.
  rewrite <- not_eq_None_Some, get_None_keys.
  destruct (decide (k ∈ PyDict.keys d)); tauto.
Qed.

Lemma elem_get_wf k v d : PyDict.wf d → (k, v) ∈ d → PyDict.get k d = Some v.
Proof.
  unfold PyDict.wf, PyDict.keys.
  induction d as [|[k' v'] d IH]; simpl; intros Hnd Hin.
  - by apply elem_of_nil in Hin.
  - apply NoDup_cons in Hnd as [Hk' Hnd].
    apply elem_of_cons in Hin as [Heq | Hin].
    + injection Heq as -> ->. by rewrite decide_True.
    + case_decide; subst.
      * exfalso. apply Hk'. apply list_elem_of_fmap. by exists (k', v).
      * auto.
Qed.

Lemma get_set_eq k v d : PyDict.get k (PyDict.set k v d) = Some v.
Proof.
  induction d as [|[k' v'] d IH]; simpl.
  - by rewrite decide_True.
  - case_decide; simpl; [by rewrite decide_True | by rewrite decide_False].
Qed.

Lemma get_set_ne k k' v d :
  k ≠ k' → PyDict.get k' (PyDict.set k v d) = PyDict.get k' d.
Proof.
  intros Hne. induction d as [|[k0 v0] d IH]; simpl.
  - by rewrite decide_False.
  - case_decide; subst; simpl.
    + by rewrite !decide_False.
    + case_decide; auto.
Qed.

Lemma keys_set_old k v d :
  k ∈ PyDict.keys d → PyDict.keys (PyDict.set k v d) = PyDict.keys d.
Proof.
  unfold PyDict.keys. induction d as [|[k0 v0] d IH]; csimpl; intros Hin.
  - by apply elem_of_nil in Hin.
  - case_decide; subst; csimpl; [done|].
    apply elem_of_cons in Hin as [? | Hin]; [done|]. f_equal. by apply IH.
Qed.

Lemma set_new k v d : k ∉ PyDict.keys d → PyDict.set k v d = d ++ [(k, v)].
Proof.
  unfold PyDict.keys. induction d as [|[k0 v0] d IH]; csimpl; intros Hin; [done|].
  apply not_elem_of_cons in Hin as [Hne Hin].
  rewrite decide_False by done. f_equal. by apply IH.
Qed.

Lemma get_app k d1 d2 :
  PyDict.get k (d1 ++ d2) =
    match PyDict.get k d1 with
    | Some v => Some v
    | None => PyDict.get k d2
    end.
Proof.
  induction d1 as [|[k0 v0] d1 IH]; simpl; [done|]. by case_decide.
Qed.
End PyDictFacts.

(** ** [rel_to_abs_paths] *)

Section PathFacts.
Variable os_path_exists : string → bool.
Variable os_path_isabs : string → bool.
Variable os_path_abspath : string → string.

Lemma setitem_last (s : Path.Store) cur k v :
  Path.setitem (length s) k v (s ++ [cur]) = s ++ [PyDict.set k v cur].
Proof.
  unfold Path.setitem. rewrite list_lookup_middle by done.
  replace (length s) with (length s + 0) at 1 by lia.
  by rewrite insert_app_r.
Qed.

(** The loop only rewrites the dictionary it iterates over: the keys
    stay and so does every value that is absolute or does not exist. *)
Lemma items_loop_last todo :
  ∀ i (s : Path.Store) cur,
    PyDict.wf cur →
    ∃ cur',
      Path.items_loop os_path_exists os_path_isabs os_path_abspath
        todo i (length s) (s ++ [cur]) = s ++ [cur']
      ∧ PyDict.keys cur' = PyDict.keys cur
      ∧ ∀ k v, PyDict.get k cur = Some v →
               os_path_isabs v = true ∨ os_path_exists v = false →
               PyDict.get k cur' = Some v.
Proof.
  induction todo as [|todo IH]; intros i s cur Hwf.
  { by exists cur. }
  cbn [Path.items_loop].
  rewrite list_lookup_middle by done. cbn [mbind option_bind].
  destruct (cur !! i) as [[k v]|] eqn:Hi; [|by exists cur].
  destruct (os_path_exists v && negb (os_path_isabs v)) eqn:Hc;
    [|by apply IH].
  apply andb_prop in Hc as [Hex Hab]. apply negb_true_iff in Hab.
  assert (Hin : (k, v) ∈ cur) by (by eapply list_elem_of_lookup_2).
  assert (Hk : k ∈ PyDict.keys cur).
  { apply list_elem_of_fmap. by exists (k, v). }
  rewrite setitem_last.
  destruct (IH (S i) s (PyDict.set k (os_path_abspath v) cur))
    as (cur' & Heq & Hkeys & Hval).
  { unfold PyDict.wf. by rewrite keys_set_old. }
  exists cur'. split; [done|]. split.
  { by rewrite Hkeys, keys_set_old. }
  intros k' v' Hget Hkeep. apply Hval; [|done].
  destruct (decide (k = k')) as [<-|Hne].
  - rewrite (elem_get_wf _ _ _ Hwf Hin) in Hget. injection Hget as <-.
    destruct Hkeep; congruence.
  - by rewrite get_set_ne.
Qed.

(** C10: [rel_to_abs_paths] leaves its argument, and every other
    dictionary of the store, as it was; it returns a new dictionary
    with the same keys (in the same order), in which every value that
    is an absolute path, or is no existing path, is the input's. *)
Theorem rel_to_abs_paths_frame (d : Path.Ref) (s : Path.Store)
    (dict : list (string * string)) :
  s !! d = Some dict →
  PyDict.wf dict →
  ∃ ret s' dict',
    Path.rel_to_abs_paths os_path_exists os_path_isabs os_path_abspath d s
      = Some (ret, s')
    ∧ ret ≠ d
    ∧ s' !! d = Some dict
    ∧ (∀ r, r ≠ ret → s' !! r = s !! r)
    ∧ s' !! ret = Some dict'
    ∧ PyDict.keys dict' = PyDict.keys dict
    ∧ ∀ k v, PyDict.get k dict = Some v →
             os_path_isabs v = true ∨ os_path_exists v = false →
             PyDict.get k dict' = Some v.
Proof.
  intros Hd Hwf. unfold Path.rel_to_abs_paths, Path.alloc. rewrite Hd.
  destruct (items_loop_last (PyDict.len dict) 0 s dict Hwf)
    as (dict' & Heq & Hkeys & Hval).
  exists (length s), (s ++ [dict']), dict'. rewrite Heq.
  assert (Hlt : d < length s) by (by eapply lookup_lt_Some).
  split; [done|]. split; [lia|].
  split; [by rewrite lookup_app_l|].
  split.
  { intros r Hr. destruct (decide (r < length s)).
    - by rewrite lookup_app_l.
    - rewrite !lookup_ge_None_2; [done|lia|rewrite length_app; simpl; lia]. }
  split; [by rewrite list_lookup_middle|]. done.
Qed.
End PathFacts.

(** The theorem at a store of one dictionary, on a file system where only
    the relative path [out] exists. *)
Lemma rel_to_abs_paths_frame_witness :
  ∃ ret s' dict',
    Path.rel_to_abs_paths
      (λ v, bool_decide (v = "out"))
      (λ v, String.prefix "/" v)
      (λ v, "/cwd/" +:+ v)
      0 [[("data", "/srv/data"); ("model", "out")]] = Some (ret, s')
    ∧ ret ≠ 0
    ∧ s' !! 0 = Some [("data", "/srv/data"); ("model", "out")]
    ∧ (∀ r, r ≠ ret →
            s' !! r = [[("data", "/srv/data"); ("model", "out")]] !! r)
    ∧ s' !! ret = Some dict'
    ∧ PyDict.keys dict'
        = PyDict.keys [("data", "/srv/data"); ("model", "out")]
    ∧ ∀ k v,
        PyDict.get k [("data", "/srv/data"); ("model", "out")] = Some v →
        String.prefix "/" v = true
        ∨ bool_decide (v = "out") = false →
        PyDict.get k dict' = Some v.
Proof.
  apply (rel_to_abs_paths_frame
           (λ v, bool_decide (v = "out"))
           (λ v, String.prefix "/" v)
           (λ v, "/cwd/" +:+ v)
           0 [[("data", "/srv/data"); ("model", "out")]]
           [("data", "/srv/data"); ("model", "out")]).
  - reflexivity.
  - unfold PyDict.wf. simpl. apply (bool_decide_unpack _). vm_compute. exact I.
Defined.

(** ** One iteration of the dispatch loop *)

Section StageFacts.
Variable Stage_run : StageArgs → Outcome.
Variables (pl : Pipeline) (env : Environment).

Lemma run_stage_ok stage tbl w s ids :
  PyDict.get stage (schemas pl) = Some s →
  depedency_ids tbl (immediate_dependencies s) = Returned ids →
  run_stage Stage_run pl env stage tbl w =
    let args := stage_args (self w) env stage s ids in
    let a := {| actor_id := length (actors (ray w)); actor_args := args |} in
    let o := length (objects (ray w)) in
    (Returned (PyDict.set stage o tbl),
     after_dispatch (Stage_run args) args w,
     [EvRemote a; EvRun a o; EvStore stage o]).
Proof.
  intros Hs Hids.
  unfold run_stage, sub_pipeline, mbind, M_bind, lift. rewrite Hs.
  cbn [dependencies]. rewrite Hids. reflexivity.
Qed.

Lemma run_stage_raise stage tbl w s e :
  PyDict.get stage (schemas pl) = Some s →
  depedency_ids tbl (immediate_dependencies s) = Raised e →
  run_stage Stage_run pl env stage tbl w = (Raised e, w, []).
Proof.
  intros Hs Hids.
  unfold run_stage, sub_pipeline, mbind, M_bind, lift. rewrite Hs.
  cbn [dependencies]. rewrite Hids. reflexivity.
Qed.

Lemma run_stage_unknown stage tbl w :
  PyDict.get stage (schemas pl) = None →
  run_stage Stage_run pl env stage tbl w
    = (Raised (UnknownStageError stage), w, []).
Proof.
  intros Hs. unfold run_stage, sub_pipeline, mbind, M_bind, lift.
  rewrite Hs. reflexivity.
Qed.

Lemma run_loop_cons stage s items tbl w :
  run_loop Stage_run pl env ((stage, s) :: items) tbl w =
    match run_stage Stage_run pl env stage tbl w with
    | (Returned tbl', w1, t1) =>
        let '(r, w2, t2) := run_loop Stage_run pl env items tbl' w1 in
        (r, w2, t1 ++ t2)
    | (Raised e, w1, t1) => (Raised e, w1, t1)
    end.
Proof. reflexivity. Qed.
End StageFacts.

(** ** The dependency lookup *)

Lemma depedency_ids_Returned tbl ds ids :
  depedency_ids tbl ds = Returned ids ↔
  Forall2 (λ d id, PyDict.get d tbl = Some id) ds ids.
Proof.
  revert ids. induction ds as [|d ds IH]; intros ids; simpl.
  - split; [intros [= <-]; constructor | by intros ->%Forall2_nil_inv_l].
  - destruct (PyDict.get d tbl) as [o|] eqn:Hd.
    + destruct (depedency_ids tbl ds) as [ids'|e] eqn:Hds.
      * split.
        -- intros [= <-]. constructor; [done | by apply IH].
        -- intros (o' & ids'' & Ho & Hf & ->)%Forall2_cons_inv_l.
           apply IH in Hf. congruence.
      * split; [done|].
        intros (o' & ids'' & Ho & Hf & ->)%Forall2_cons_inv_l.
        apply IH in Hf. congruence.
    + split; [done|].
      intros (o' & ids'' & Ho & Hf & ->)%Forall2_cons_inv_l. congruence.
Qed.

(** The lookup succeeds when every name is a key; otherwise it raises
    [KeyError] for a name that depends on the keys only. *)
Lemma depedency_ids_keys (seen ds : list string) :
  (Forall (λ d, d ∈ seen) ds
   ∧ ∀ tbl : list (string * ObjectID), PyDict.keys tbl = seen →
       ∃ ids, depedency_ids tbl ds = Returned ids)
  ∨ (∃ d, d ∈ ds ∧ (d ∉ seen)
     ∧ ∀ tbl : list (string * ObjectID), PyDict.keys tbl = seen →
         depedency_ids tbl ds = Raised (KeyError d)).
Proof.
  induction ds as [|d ds IH].
  - left. split; [constructor|]. intros tbl _. by exists [].
  - destruct (decide (d ∈ seen)) as [Hin|Hout].
    + destruct IH as [[Hall Hok] | (d' & Hd' & Hout & Hraise)].
      * left. split; [by constructor|]. intros tbl Hk. simpl.
        destruct (proj2 (get_is_Some_keys d tbl)) as [o Ho]; [by rewrite Hk|].
        rewrite Ho. destruct (Hok tbl Hk) as [ids ->]. by eexists.
      * right. exists d'. split; [by right|]. split; [done|].
        intros tbl Hk. simpl.
        destruct (proj2 (get_is_Some_keys d tbl)) as [o Ho]; [by rewrite Hk|].
        by rewrite Ho, (Hraise tbl Hk).
    + right. exists d. split; [by left|]. split; [done|].
      intros tbl Hk. simpl.
      by rewrite (proj2 (get_None_keys d tbl)) by (by rewrite Hk).
Qed.

(** ** What every run of the loop preserves *)

Section LoopFrame.
Variable Stage_run : StageArgs → Outcome.
Variables (pl : Pipeline) (env : Environment).

Lemma run_stage_cases stage tbl w :
  (∃ s ids,
      PyDict.get stage (schemas pl) = Some s
      ∧ depedency_ids tbl (immediate_dependencies s) = Returned ids
      ∧ run_stage Stage_run pl env stage tbl w =
          (Returned (PyDict.set stage (length (objects (ray w))) tbl),
           after_dispatch
             (Stage_run (stage_args (self w) env stage s ids))
             (stage_args (self w) env stage s ids) w,
           [EvRemote {| actor_id := length (actors (ray w));
                        actor_args := stage_args (self w) env stage s ids |};
            EvRun {| actor_id := length (actors (ray w));
                     actor_args := stage_args (self w) env stage s ids |}
                  (length (objects (ray w)));
            EvStore stage (length (objects (ray w)))]))
  ∨ (∃ e, run_stage Stage_run pl env stage tbl w = (Raised e, w, [])).
Proof.
  destruct (PyDict.get stage (schemas pl)) as [s|] eqn:Hs.
  - destruct (depedency_ids tbl (immediate_dependencies s)) as [ids|e] eqn:Hd.
    + left. exists s, ids. split; [done|]. split; [done|].
      by rewrite (run_stage_ok _ _ _ _ _ _ s ids).
    + right. exists e. by rewrite (run_stage_raise _ _ _ _ _ _ s e).
  - right. eexists. by apply run_stage_unknown.
Qed.

(** The loop never writes the [Experiment] object nor the substrate's
    initialisation, and all its events are dispatches and stores made
    with the experiment's entries. *)
Lemma run_loop_frame items :
  ∀ tbl w,
    self (run_loop Stage_run pl env items tbl w).1.2 = self w
    ∧ initialized (ray (run_loop Stage_run pl env items tbl w).1.2)
        = initialized (ray w)
    ∧ Forall (loop_event (self w) env)
        (run_loop Stage_run pl env items tbl w).2.
Proof.
  induction items as [|[stage s0] items IH]; intros tbl w.
  { simpl. repeat split; constructor. }
  rewrite run_loop_cons.
  destruct (run_stage_cases stage tbl w)
    as [(s & ids & Hs & Hd & ->) | (e & ->)].
  - specialize (IH (PyDict.set stage (length (objects (ray w))) tbl)
                   (after_dispatch
                      (Stage_run (stage_args (self w) env stage s ids))
                      (stage_args (self w) env stage s ids) w)).
    destruct (run_loop _ _ _ _ _ _) as [[r w2] t2]. simpl in *.
    destruct IH as (Hself & Hinit & Hev).
    repeat split; try done.
    repeat (constructor; [simpl; done|]). done.
  - simpl. repeat split; constructor.
Qed.
End LoopFrame.

(** ** [run] around its loop *)

Section RunShape.
Variable Stage_run : StageArgs → Outcome.

Lemma run_unfold env w :
  run Stage_run env w =
    let env' := run_environment env (self w) in
    match run_loop Stage_run (Pipeline_new (pipeline (self w))) env'
            (pipeline (self w)) [] (loop_entry env' w) with
    | (Returned tbl, w2, t) =>
        (Returned (), w2,
         entry_events env' w
           ++ t ++ [EvWait (PyDict.values tbl) (PyDict.len tbl)])
    | (Raised e, w2, t) => (Raised e, w2, entry_events env' w ++ t)
    end.
Proof.
  unfold run, mbind, M_bind, get_self, ray_is_initialized, loop_entry,
    entry_events, run_environment.
  destruct (initialized (ray w)) as [i|] eqn:Hi; simpl.
  - by destruct (run_loop _ _ _ _ _ _) as [[[tbl|e] w2] t].
  - by destruct (run_loop _ _ _ _ _ _) as [[[tbl|e] w2] t].
Qed.

Lemma loop_entry_self env w : self (loop_entry env w) = self w.
Proof. unfold loop_entry. by destruct (initialized (ray w)). Qed.
End RunShape.

(** ** A loop that runs to its end *)

Section LoopReturned.
Variable Stage_run : StageArgs → Outcome.
Variables (pl : Pipeline) (env : Environment).

Lemma NoDup_keys_step (seen : list string) stage (rest : list string) :
  NoDup (seen ++ stage :: rest) →
  (stage ∉ seen) ∧ NoDup ((seen ++ [stage]) ++ rest).
Proof.
  intros Hnd. split.
  - apply NoDup_app in Hnd as (_ & Hdis & _). intros Hin.
    apply (Hdis stage Hin). by left.
  - by rewrite <- app_assoc.
Qed.

Lemma runs_chunk a o stage t :
  runs (EvRemote a :: EvRun a o :: EvStore stage o :: t) = (a, o) :: runs t.
Proof. reflexivity. Qed.

Lemma stores_chunk a o stage t :
  stores (EvRemote a :: EvRun a o :: EvStore stage o :: t)
    = (stage, o) :: stores t.
Proof. reflexivity. Qed.

Lemma dispatched_chunk a o stage t :
  dispatched (EvRemote a :: EvRun a o :: EvStore stage o :: t)
    = st_name (actor_args a) :: dispatched t.
Proof. reflexivity. Qed.

(** When the loop returns, its table is the initial one extended by the
    stores of the trace, one per item and in their order, each holding
    the object id of that item's dispatch; and the trace replays. *)
Lemma run_loop_returned items :
  ∀ tbl w tbl' w' tr,
    (∀ n s, (n, s) ∈ items → PyDict.get n (schemas pl) = Some s) →
    NoDup (PyDict.keys tbl ++ PyDict.keys items) →
    run_loop Stage_run pl env items tbl w = (Returned tbl', w', tr) →
    tbl' = tbl ++ stores tr
    ∧ dispatched tr = PyDict.keys items
    ∧ stores tr = (λ p, (st_name (actor_args p.1), p.2)) <$> runs tr
    ∧ replay tbl tr
    ∧ Forall (λ p, ∃ s, (st_name (actor_args p.1), s) ∈ items
                        ∧ dependencies (st_pipeline (actor_args p.1))
                            = immediate_dependencies s)
        (runs tr).
Proof.
  induction items as [|[stage s0] items IH]; intros tbl w tbl' w' tr Hsch Hnd.
  { simpl. intros [= <- <- <-]. simpl. rewrite app_nil_r.
    repeat split; constructor. }
  rewrite run_loop_cons.
  destruct (run_stage_cases Stage_run pl env stage tbl w)
    as [(s & ids & Hs & Hd & ->) | (e & ->)]; [|done].
  rewrite (Hsch stage s0) in Hs by left. injection Hs as <-.
  unfold PyDict.keys in Hnd. rewrite fmap_cons in Hnd. simpl in Hnd.
  apply NoDup_keys_step in Hnd as [Hnew Hnd].
  rewrite (set_new stage _ tbl Hnew).
  specialize (IH (tbl ++ [(stage, length (objects (ray w)))])
                 (after_dispatch
                    (Stage_run (stage_args (self w) env stage s0 ids))
                    (stage_args (self w) env stage s0 ids) w)).
  destruct (run_loop _ _ _ _ _ _) as [[r w2] t2] eqn:Hloop.
  intros [= -> <- <-].
  destruct (IH tbl' w2 t2) as (Htbl & Hdisp & Hst & Hrep & Hruns).
  { intros n s Hin. apply Hsch. by right. }
  { unfold PyDict.keys. by rewrite fmap_app. }
  { done. }
  rewrite runs_chunk, stores_chunk, dispatched_chunk.
  split; [|split; [|split; [|split]]].
  - rewrite Htbl. by rewrite <- app_assoc.
  - rewrite Hdisp. done.
  - rewrite Hst. done.
  - simpl. split; [by apply depedency_ids_Returned|]. done.
  - constructor.
    + exists s0. simpl. split; [left|done].
    + eapply Forall_impl; [exact Hruns|].
      intros p (s & Hin & Hdeps). exists s. split; [by right|done].
Qed.

(** In a topological order the loop runs to its end. *)
Lemma run_loop_total items :
  ∀ tbl w,
    (∀ n s, (n, s) ∈ items → PyDict.get n (schemas pl) = Some s) →
    NoDup (PyDict.keys tbl ++ PyDict.keys items) →
    topological (PyDict.keys tbl) items = true →
    ∃ tbl' w' tr,
      run_loop Stage_run pl env items tbl w = (Returned tbl', w', tr).
Proof.
  induction items as [|[stage s0] items IH]; intros tbl w Hsch Hnd Htop.
  { simpl. by eexists _, _, _. }
  simpl in Htop. apply andb_prop in Htop as [Hdeps Htop].
  unfold PyDict.keys in Hnd. rewrite fmap_cons in Hnd. simpl in Hnd.
  apply NoDup_keys_step in Hnd as [Hnew Hnd].
  rewrite run_loop_cons.
  destruct (depedency_ids_keys (PyDict.keys tbl) (immediate_dependencies s0))
    as [[_ Hok] | (d & Hd & Hout & _)].
  - destruct (Hok tbl eq_refl) as [ids Hids].
    rewrite (run_stage_ok _ _ _ _ _ _ s0 ids) by (by auto using list_elem_of_here).
    cbn zeta.
    destruct (IH (PyDict.set stage (length (objects (ray w))) tbl)
                (after_dispatch
                   (Stage_run (stage_args (self w) env stage s0 ids))
                   (stage_args (self w) env stage s0 ids) w))
      as (tbl' & w' & tr & ->).
    + intros n s Hin. apply Hsch. by right.
    + rewrite set_new by done. unfold PyDict.keys. by rewrite fmap_app.
    + rewrite set_new by done. unfold PyDict.keys in *.
      by rewrite fmap_app.
    + by eexists _, _, _.
  - exfalso. rewrite forallb_forall in Hdeps.
    apply Hout. apply (bool_decide_eq_true_1 _). apply Hdeps.
    by apply list_elem_of_In.
Qed.
End LoopReturned.

(** ** A loop that stops at an unresolved dependency *)

Lemma topological_app seen (l1 l2 : list (string * Schema)) :
  topological seen (l1 ++ l2)
  = topological seen l1 && topological (seen ++ PyDict.keys l1) l2.
Proof.
  revert seen. induction l1 as [|[n s] l1 IH]; intros seen.
  - simpl. by rewrite app_nil_r.
  - cbn [topological app]. rewrite IH. unfold PyDict.keys.
    rewrite fmap_cons. cbn [fst]. rewrite <- app_assoc. cbn [app].
    by rewrite andb_assoc.
Qed.

Lemma forallb_seen (seen ds : list string) :
  forallb (λ d, bool_decide (d ∈ seen)) ds = true ↔ Forall (λ d, d ∈ seen) ds.
Proof.
  rewrite forallb_forall, Forall_forall. split; intros H d Hd.
  - apply (bool_decide_eq_true_1 _), H. by apply list_elem_of_In.
  - apply bool_decide_eq_true_2, H. by apply list_elem_of_In.
Qed.

Section LoopRaises.
Variable pl : Pipeline.

(** The first stage with a dependency that is not declared before it
    stops the loop with [KeyError] for that dependency; stage and
    dependency depend on the declaration order only. *)
Lemma run_loop_raises items :
  ∀ seen,
    (∀ n s, (n, s) ∈ items → PyDict.get n (schemas pl) = Some s) →
    topological seen items = false →
    ∃ pre n s post d,
      items = pre ++ (n, s) :: post
      ∧ topological seen pre = true
      ∧ d ∈ immediate_dependencies s
      ∧ (d ∉ seen ++ PyDict.keys pre)
      ∧ ∀ Stage_run env (tbl : list (string * ObjectID)) w,
          PyDict.keys tbl = seen →
          NoDup (seen ++ PyDict.keys items) →
          ∃ w' tr,
            run_loop Stage_run pl env items tbl w
              = (Raised (KeyError d), w', tr)
            ∧ dispatched tr = PyDict.keys pre.
Proof.
  induction items as [|[stage s0] items IH]; intros seen Hsch Htop; [done|].
  destruct (depedency_ids_keys seen (immediate_dependencies s0))
    as [[Hall Hok] | (d & Hd & Hout & Hraise)].
  - simpl in Htop. rewrite (proj2 (forallb_seen _ _) Hall) in Htop.
    simpl in Htop.
    destruct (IH (seen ++ [stage])) as (pre & n & s & post & d & -> & Hpre
                                        & Hd & Hout & Hrun); [|done|].
    { intros n s Hin. apply Hsch. by right. }
    exists ((stage, s0) :: pre), n, s, post, d.
    split; [done|]. split.
    { simpl. by rewrite (proj2 (forallb_seen _ _) Hall), Hpre. }
    split; [done|]. split.
    { unfold PyDict.keys in *. rewrite fmap_cons. simpl.
      by rewrite <- app_assoc in Hout. }
    intros Stage_run env tbl w Hk Hnd.
    unfold PyDict.keys in Hnd. rewrite fmap_cons in Hnd. simpl in Hnd.
    apply NoDup_keys_step in Hnd as [Hnew Hnd].
    destruct (Hok tbl Hk) as [ids Hids].
    rewrite run_loop_cons.
    rewrite (run_stage_ok _ _ _ _ _ _ s0 ids) by (by auto using list_elem_of_here).
    cbn zeta. rewrite set_new by (by rewrite Hk).
    destruct (Hrun Stage_run env
                (tbl ++ [(stage, length (objects (ray w)))])
                (after_dispatch
                   (Stage_run (stage_args (self w) env stage s0 ids))
                   (stage_args (self w) env stage s0 ids) w))
      as (w' & tr & -> & Hdisp).
    { unfold PyDict.keys in *. by rewrite fmap_app, Hk. }
    { done. }
    eexists _, _. split; [reflexivity|].
    cbn [app]. rewrite dispatched_chunk, Hdisp.
    unfold PyDict.keys. by rewrite fmap_cons.
  - exists [], stage, s0, items, d.
    split; [done|]. split; [done|]. split; [done|].
    split; [by rewrite app_nil_r|].
    intros Stage_run env tbl w Hk Hnd. rewrite run_loop_cons.
    rewrite (run_stage_raise _ _ _ _ _ _ s0 (KeyError d))
      by (by auto using list_elem_of_here).
    by eexists _, _.
Qed.
End LoopRaises.

(** ** Traces *)

Lemma loop_event_not_blocking e env ev : loop_event e env ev → blocking ev = false.
Proof. by destruct ev. Qed.

Lemma entry_events_not_blocking env w :
  Forall (λ ev, blocking ev = false) (entry_events env w).
Proof.
  unfold entry_events. destruct (initialized (ray w)); repeat constructor.
Qed.

Lemma runs_entry_events env w t : runs (entry_events env w ++ t) = runs t.
Proof. unfold entry_events. by destruct (initialized (ray w)). Qed.

Lemma stores_entry_events env w t : stores (entry_events env w ++ t) = stores t.
Proof. unfold entry_events. by destruct (initialized (ray w)). Qed.

Lemma runs_wait_last t ids k : runs (t ++ [EvWait ids k]) = runs t.
Proof. unfold runs. rewrite omap_app. simpl. by rewrite app_nil_r. Qed.

Lemma stores_wait_last t ids k : stores (t ++ [EvWait ids k]) = stores t.
Proof. unfold stores. rewrite omap_app. simpl. by rewrite app_nil_r. Qed.

(** A trace that ends with its only blocking call splits at that call in
    one way. *)
Lemma wait_split (l : list Event) a b :
  Forall (λ ev, blocking ev = false) l →
  ∀ t1 ids k t2,
    l ++ [EvWait a b] = t1 ++ EvWait ids k :: t2 →
    t1 = l ∧ t2 = [] ∧ ids = a ∧ k = b.
Proof.
  induction 1 as [|ev l Hev Hl IH]; intros t1 ids k t2 Heq.
  - destruct t1 as [|ev' t1]; simpl in Heq.
    + by injection Heq as <- <- <-.
    + injection Heq as _ Heq. by destruct t1.
  - destruct t1 as [|ev' t1]; simpl in Heq.
    + injection Heq as -> _. done.
    + injection Heq as <- Heq.
      destruct (IH _ _ _ _ Heq) as (-> & -> & -> & ->). done.
Qed.

(** The dependencies of a dispatch were looked up in the table as the
    stores before it left it. *)
Lemma replay_split t1 :
  ∀ tbl a h t2,
    replay tbl (t1 ++ EvRun a h :: t2) →
    Forall2 (λ d id, PyDict.get d (tbl ++ stores t1) = Some id)
      (dependencies (st_pipeline (actor_args a)))
      (st_dependencies (actor_args a)).
Proof.
  induction t1 as [|ev t1 IH]; intros tbl a h t2 Hrep.
  - simpl in Hrep. destruct Hrep as [Hf _]. simpl. by rewrite app_nil_r.
  - destruct ev; simpl in Hrep.
    + by apply IH in Hrep.
    + by apply IH in Hrep.
    + destruct Hrep as [_ Hrep]. by apply IH in Hrep.
    + destruct Hrep as [_ Hrep]. apply IH in Hrep.
      change (stores (EvStore stage object_id :: t1))
        with ((stage, object_id) :: stores t1).
      by rewrite <- app_assoc in Hrep.
    + by apply IH in Hrep.
Qed.

(** ** The properties of [run] *)

Section RunFacts.
Variable Stage_run : StageArgs → Outcome.

(** C9: [run] does not write the [Experiment] object it is called on:
    the object, and so each of its fields [name], [save_path],
    [pipeline], [algorithm], [reduce], [cpus_per_trial] and
    [gpus_per_trial], is the same after the call, whether [run] returns
    or raises. *)
Theorem run_preserves_self (env : option Environment) (w : World) :
  self (run Stage_run env w).1.2 = self w.
Proof.
  rewrite run_unfold. cbn zeta.
  pose proof (run_loop_frame Stage_run (Pipeline_new (pipeline (self w)))
                (run_environment env (self w)) (pipeline (self w)) []
                (loop_entry (run_environment env (self w)) w))
    as (Hself & _ & _).
  destruct (run_loop _ _ _ _ _ _) as [[[tbl|e] w2] t]; simpl in *;
    by rewrite Hself, loop_entry_self.
Qed.

(** C7: when the substrate is already initialised, [run] makes no
    [ray.init] call and the substrate's initialisation is the same
    after the call. *)
Theorem run_init_idempotent (env : option Environment) (w : World) :
  is_Some (initialized (ray w)) →
  initialized (ray (run Stage_run env w).1.2) = initialized (ray w)
  ∧ Forall (λ ev, ∀ address local_mode, ev ≠ EvInit address local_mode)
      (run Stage_run env w).2.
Proof.
  intros [i Hi]. rewrite run_unfold. cbn zeta.
  pose proof (run_loop_frame Stage_run (Pipeline_new (pipeline (self w)))
                (run_environment env (self w)) (pipeline (self w)) []
                (loop_entry (run_environment env (self w)) w))
    as (_ & Hinit & Hev).
  unfold loop_entry, entry_events in *. rewrite Hi in *.
  assert (Hno : ∀ t, Forall (loop_event (self w)
                               (run_environment env (self w))) t →
                     Forall (λ ev, ∀ a m, ev ≠ EvInit a m) t).
  { intros t Ht. eapply Forall_impl; [exact Ht|].
    intros ev Hl a m ->. done. }
  destruct (run_loop _ _ _ _ _ _) as [[[tbl|e] w2] t]; simpl in *.
  - split; [congruence|]. apply Forall_app. split; [by apply Hno|].
    by repeat constructor.
  - split; [congruence|]. by apply Hno.
Qed.

(** C6: the calls of [run] up to the end of its loop never block; when
    the loop has finished [run] makes its one blocking call, the
    barrier [ray.wait], as its last call; when the loop raises there is
    no blocking call. *)
Theorem run_single_suspension_point (env : option Environment) (w : World) :
  match run Stage_run env w with
  | (Returned _, _, tr) =>
      ∃ t ids k, tr = t ++ [EvWait ids k]
                 ∧ Forall (λ ev, blocking ev = false) t
                 ∧ runs t = runs tr
  | (Raised _, _, tr) => Forall (λ ev, blocking ev = false) tr
  end.
Proof.
  rewrite run_unfold. cbn zeta.
  pose proof (run_loop_frame Stage_run (Pipeline_new (pipeline (self w)))
                (run_environment env (self w)) (pipeline (self w)) []
                (loop_entry (run_environment env (self w)) w))
    as (_ & _ & Hev).
  assert (Hnb : Forall (λ ev, blocking ev = false)
                  (entry_events (run_environment env (self w)) w
                     ++ (run_loop Stage_run
                           (Pipeline_new (pipeline (self w)))
                           (run_environment env (self w))
                           (pipeline (self w)) []
                           (loop_entry (run_environment env (self w)) w)).2)).
  { apply Forall_app. split; [apply entry_events_not_blocking|].
    eapply Forall_impl; [exact Hev|]. intros ev.
    apply loop_event_not_blocking. }
  destruct (run_loop _ _ _ _ _ _) as [[[tbl|e] w2] t]; simpl in *; [|done].
  eexists _, _, _. rewrite app_assoc. split; [reflexivity|].
  split; [done|]. by rewrite runs_wait_last.
Qed.
End RunFacts.

(** ** The constructor *)

(** Whatever resource maps the constructor is given, no stage is
    dispatched with a CPU or GPU count. *)
Lemma run_dispatches_without_resources Stage_run n sp p a r c g env ray0 :
  Forall (λ ev, match ev with
                | EvRemote st | EvRun st _ =>
                    st_cpus_per_trial (actor_args st) = None
                    ∧ st_gpus_per_trial (actor_args st) = None
                | _ => True
                end)
    (run Stage_run env {| self := __init__ n sp p a r c g; ray := ray0 |}).2.
Proof.
  rewrite run_unfold. cbn zeta.
  match goal with
  | |- context [run_loop ?sr ?pl ?e ?items ?tbl ?w] =>
      pose proof (run_loop_frame sr pl e items tbl w) as (_ & _ & Hev)
  end.
  rewrite loop_entry_self in Hev.
  assert (Hno : Forall (λ ev, match ev with
                | EvRemote st | EvRun st _ =>
                    st_cpus_per_trial (actor_args st) = None
                    ∧ st_gpus_per_trial (actor_args st) = None
                | _ => True
                end) (entry_events
                        (run_environment env
                           (self {| self := __init__ n sp p a r c g;
                                    ray := ray0 |}))
                        {| self := __init__ n sp p a r c g; ray := ray0 |})).
  { unfold entry_events. destruct (initialized _); repeat constructor. }
  destruct (run_loop _ _ _ _ _ _) as [[[tbl|e] w2] t]; simpl in *.
  - apply Forall_app. split; [done|]. apply Forall_app. split.
    + eapply Forall_impl; [exact Hev|]. intros [] Hl; try done.
      * by destruct Hl as (_ & -> & -> & _).
      * by destruct Hl as (_ & -> & -> & _).
    + by repeat constructor.
  - apply Forall_app. split; [done|].
    eapply Forall_impl; [exact Hev|]. intros [] Hl; try done.
    + by destruct Hl as (_ & -> & -> & _).
    + by destruct Hl as (_ & -> & -> & _).
Qed.

(** C1: an experiment constructed with [cpus_per_trial = {train: 2}] and
    [gpus_per_trial = {train: 0}] dispatches its stage [train] with
    neither count: the constructor stores empty maps, whatever it is
    given, and [run] looks the stage up in them. *)
Theorem run_drops_resource_request :
  let e := __init__ "exp" None (Some [("train", {| links := [] |})]) None None
             (Some {["train" := 2%Z]}) (Some {["train" := 0%Z]}) in
  let w := {| self := e;
              ray := {| initialized := None; actors := []; objects := [] |} |} in
  cpus_per_trial e = ∅
  ∧ gpus_per_trial e = ∅
  ∧ (run (λ _, Succeeded) None w).1.1 = Returned ()
  ∧ actors (ray (run (λ _, Succeeded) None w).1.2)
    = [ {| st_name := "train";
           st_pipeline := {| target := "train"; dependencies := [] |};
           st_reductions := None;
           st_dependencies := [];
           st_cpus_per_trial := None;
           st_gpus_per_trial := None;
           st_environment := {| output_path := "flambe_output";
                                debug := false |} |} ].
Proof. repeat split. Qed.

(** C8: a pipeline, algorithm or reduce argument that is [None] is stored
    as an empty mapping; [run] on an experiment without pipeline creates
    no actor and submits no work, calls the barrier on no object ids with
    [num_returns = 0], and returns. *)
Theorem run_empty_pipeline Stage_run n sp p a r c g env ray0 :
  pipeline (__init__ n sp None a r c g) = []
  ∧ algorithm (__init__ n sp p None r c g) = []
  ∧ reduce (__init__ n sp p a None c g) = ∅
  ∧ (run Stage_run env
       {| self := __init__ n sp None a r c g; ray := ray0 |}).1.1
    = Returned ()
  ∧ (∃ t, (run Stage_run env
             {| self := __init__ n sp None a r c g; ray := ray0 |}).2
          = t ++ [EvWait [] 0]
          ∧ Forall (λ ev, ∃ address local_mode,
                            ev = EvInit address local_mode) t)
  ∧ actors (ray (run Stage_run env
                   {| self := __init__ n sp None a r c g; ray := ray0 |}).1.2)
    = actors ray0
  ∧ objects (ray (run Stage_run env
                    {| self := __init__ n sp None a r c g; ray := ray0 |}).1.2)
    = objects ray0.
Proof.
  split; [done|]. split; [done|]. split; [done|].
  rewrite run_unfold. cbn zeta. simpl.
  unfold entry_events, loop_entry. simpl.
  destruct (initialized ray0) as [i|]; simpl.
  - split; [done|]. split; [|done]. exists []. by split.
  - split; [done|]. split; [|done]. eexists [_]. split; [done|].
    repeat constructor. by eexists _, _.
Qed.

(** ** Failing stages *)

Section Outcomes.
Variables (pl : Pipeline) (env : Environment).

(** Two runs of the loop whose stages resolve differently return or
    raise alike and make the same calls. *)
Lemma run_loop_outcomes Stage_run1 Stage_run2 items :
  ∀ tbl w1 w2,
    self w1 = self w2 →
    same_shape (ray w1) (ray w2) →
    (run_loop Stage_run1 pl env items tbl w1).1.1
      = (run_loop Stage_run2 pl env items tbl w2).1.1
    ∧ (run_loop Stage_run1 pl env items tbl w1).2
      = (run_loop Stage_run2 pl env items tbl w2).2.
Proof.
  induction items as [|[stage s0] items IH];
    intros tbl w1 w2 Hself (Hinit & Hact & Hobj); [done|].
  rewrite !run_loop_cons.
  destruct (PyDict.get stage (schemas pl)) as [s|] eqn:Hs.
  - destruct (depedency_ids tbl (immediate_dependencies s)) as [ids|e] eqn:Hd.
    + rewrite !(run_stage_ok _ _ _ _ _ _ s ids) by done. cbn zeta.
      rewrite Hself, Hact, Hobj.
      match goal with
      | |- context [run_loop Stage_run1 pl env items ?t ?wa] =>
          match goal with
          | |- context [run_loop Stage_run2 pl env items t ?wb] =>
              destruct (IH t wa wb) as [Hr Ht]
          end
      end.
      { simpl. done. }
      { unfold same_shape. simpl. rewrite !length_app. simpl.
        by rewrite Hinit, Hact, Hobj. }
      destruct (run_loop Stage_run1 _ _ _ _ _) as [[r1 w1'] t1].
      destruct (run_loop Stage_run2 _ _ _ _ _) as [[r2 w2'] t2].
      simpl in *. by subst.
    + by rewrite !(run_stage_raise _ _ _ _ _ _ s e).
  - by rewrite !run_stage_unknown.
Qed.

(** The substrate's objects after the loop are those before it followed
    by what each dispatched stage's work resolves to; the object ids
    the dispatches returned number them. *)
Lemma run_loop_objects Stage_run items :
  ∀ tbl w,
    objects (ray (run_loop Stage_run pl env items tbl w).1.2)
      = objects (ray w)
          ++ ((λ p, Stage_run (actor_args p.1))
                <$> runs (run_loop Stage_run pl env items tbl w).2)
    ∧ (runs (run_loop Stage_run pl env items tbl w).2).*2
      = seq (length (objects (ray w)))
            (length (runs (run_loop Stage_run pl env items tbl w).2)).
Proof.
  induction items as [|[stage s0] items IH]; intros tbl w.
  { simpl. by rewrite app_nil_r. }
  rewrite run_loop_cons.
  destruct (run_stage_cases Stage_run pl env stage tbl w)
    as [(s & ids & Hs & Hd & ->) | (e & ->)].
  - specialize (IH (PyDict.set stage (length (objects (ray w))) tbl)
                   (after_dispatch
                      (Stage_run (stage_args (self w) env stage s ids))
                      (stage_args (self w) env stage s ids) w)).
    destruct (run_loop _ _ _ _ _ _) as [[r w2] t2].
    cbn [fst snd app] in *. rewrite runs_chunk.
    destruct IH as [Hobj Hids]. simpl in Hobj, Hids.
    rewrite length_app in Hids. simpl in Hids.
    split.
    + rewrite Hobj. rewrite <- app_assoc. done.
    + rewrite fmap_cons. simpl. f_equal. rewrite Hids. f_equal. lia.
  - simpl. by rewrite app_nil_r.
Qed.
End Outcomes.

(** C2 (amended): what [run] returns or raises, and the calls it makes,
    are the same whatever the work of the stages resolves to: the result
    of the barrier is dropped and a run that reaches it returns [None].
    A failure stays in the object of the stage that failed. *)
Theorem run_result_independent_of_outcomes
    (Stage_run1 Stage_run2 : StageArgs → Outcome) (env : option Environment)
    (w : World) :
  (run Stage_run1 env w).1.1 = (run Stage_run2 env w).1.1
  ∧ (run Stage_run1 env w).2 = (run Stage_run2 env w).2
  ∧ ∃ before,
      objects (ray (run Stage_run1 env w).1.2)
        = before ++ ((λ p, Stage_run1 (actor_args p.1))
                       <$> runs (run Stage_run1 env w).2)
      ∧ (runs (run Stage_run1 env w).2).*2
        = seq (length before) (length (runs (run Stage_run1 env w).2)).
Proof.
  rewrite !run_unfold. cbn zeta.
  match goal with
  | |- context [run_loop Stage_run1 ?pl ?e ?items ?tbl ?w1] =>
      pose proof (run_loop_outcomes pl e Stage_run1 Stage_run2 items tbl
                    w1 w1 eq_refl) as [Hr Ht];
      [by repeat split|];
      pose proof (run_loop_objects pl e Stage_run1 items tbl w1)
        as [Hobj Hids]
  end.
  destruct (run_loop Stage_run1 _ _ _ _ _) as [[r1 w1'] t1].
  destruct (run_loop Stage_run2 _ _ _ _ _) as [[r2 w2'] t2].
  simpl in Hr, Ht, Hobj, Hids. subst r2 t2.
  assert (Hb : objects (ray (loop_entry (run_environment env (self w)) w))
               = objects (ray w)).
  { unfold loop_entry. by destruct (initialized (ray w)). }
  rewrite Hb in *.
  destruct r1 as [tbl|e]; simpl.
  - split; [done|]. split; [done|]. exists (objects (ray w)).
    by rewrite runs_entry_events, runs_wait_last.
  - split; [done|]. split; [done|]. exists (objects (ray w)).
    by rewrite runs_entry_events.
Qed.

(** C2, as stated, fails: the work of the dispatched stage [F] resolves
    with a failure, which the substrate holds in the object of [F], and
    [run] returns [None] to its caller, as it does when [F] succeeds. *)
Lemma run_swallows_stage_failure :
  let fails := λ args : StageArgs,
      if bool_decide (st_name args = "F") then Failed "boom" else Succeeded in
  let w := {| self := __init__ "exp" None
                        (Some [("F", {| links := [] |});
                               ("G", {| links := [] |})])
                        None None None None;
              ray := {| initialized := None; actors := []; objects := [] |} |} in
  dispatched (run fails None w).2 = ["F"; "G"]
  ∧ (runs (run fails None w).2).*2 = [0; 1]
  ∧ objects (ray (run fails None w).1.2) = [Failed "boom"; Succeeded]
  ∧ (run fails None w).1.1 = Returned ()
  ∧ (run fails None w).1.1 = (run (λ _, Succeeded) None w).1.1.
Proof. repeat split. Qed.

(** ** Dispatch in declaration order *)

Lemma wf_schemas (items : list (string * Schema)) :
  PyDict.wf items →
  ∀ n s, (n, s) ∈ items →
         PyDict.get n (schemas (Pipeline_new items)) = Some s.
Proof. intros Hwf n s Hin. by apply elem_get_wf. Qed.

(** C4: in a topological declaration order [run] returns; it dispatches
    every stage once, in declaration order, and stores the object id of
    each dispatch under the stage's name, so no store replaces an earlier
    one; and each dispatch passes, for the immediate dependencies of its
    stage and in their order, the object ids that the stores made before
    that dispatch hold under the dependencies' names. *)
Theorem run_dispatches_in_dependency_order
    (Stage_run : StageArgs → Outcome) (env : option Environment) (w : World) :
  PyDict.wf (pipeline (self w)) →
  topological [] (pipeline (self w)) = true →
  (run Stage_run env w).1.1 = Returned ()
  ∧ dispatched (run Stage_run env w).2 = PyDict.keys (pipeline (self w))
  ∧ stores (run Stage_run env w).2
    = (λ p, (st_name (actor_args p.1), p.2)) <$> runs (run Stage_run env w).2
  ∧ PyDict.wf (stores (run Stage_run env w).2)
  ∧ ∀ t1 a h t2,
      (run Stage_run env w).2 = t1 ++ EvRun a h :: t2 →
      ∃ s, (st_name (actor_args a), s) ∈ pipeline (self w)
           ∧ dependencies (st_pipeline (actor_args a))
               = immediate_dependencies s
           ∧ Forall2 (λ d id, PyDict.get d (stores t1) = Some id)
               (immediate_dependencies s)
               (st_dependencies (actor_args a)).
Proof.
  intros Hwf Htop. rewrite run_unfold. cbn zeta.
  set (env' := run_environment env (self w)).
  destruct (run_loop_total Stage_run (Pipeline_new (pipeline (self w))) env'
              (pipeline (self w)) [] (loop_entry env' w))
    as (tbl & w' & tr & Hloop); [by apply wf_schemas|done|done|].
  rewrite Hloop.
  destruct (run_loop_returned Stage_run (Pipeline_new (pipeline (self w)))
              env' (pipeline (self w)) [] (loop_entry env' w) tbl w' tr)
    as (Htbl & Hdisp & Hst & Hrep & Hruns); [by apply wf_schemas|done|done|].
  cbn [fst snd].
  assert (Hr : runs (entry_events env' w
                       ++ tr ++ [EvWait (PyDict.values tbl) (PyDict.len tbl)])
               = runs tr)
    by (by rewrite runs_entry_events, runs_wait_last).
  assert (Hs : stores (entry_events env' w
                         ++ tr ++ [EvWait (PyDict.values tbl) (PyDict.len tbl)])
               = stores tr)
    by (by rewrite stores_entry_events, stores_wait_last).
  assert (Hk : PyDict.keys (stores tr) = PyDict.keys (pipeline (self w))).
  { rewrite <- Hdisp, Hst. unfold PyDict.keys, dispatched.
    rewrite <- list_fmap_compose. done. }
  split; [done|]. split; [by unfold dispatched; rewrite Hr|].
  split; [by rewrite Hr, Hs|].
  split; [unfold PyDict.wf; by rewrite Hs, Hk|].
  intros t1 a h t2 Heq.
  assert (Hin : (a, h) ∈ runs tr).
  { rewrite <- Hr, Heq. unfold runs. rewrite omap_app. simpl.
    apply elem_of_app. right. left. }
  rewrite Forall_forall in Hruns.
  destruct (Hruns _ Hin) as (s & Hs' & Hdeps). exists s.
  split; [done|]. split; [done|]. rewrite <- Hdeps.
  assert (Hrep' : replay [] (t1 ++ EvRun a h :: t2)).
  { rewrite <- Heq. unfold entry_events.
    assert (Hw : replay [] (tr ++ [EvWait (PyDict.values tbl) (PyDict.len tbl)])).
    { clear -Hrep. revert Hrep. generalize (@nil (string * nat)).
      induction tr as [|ev tr IH]; intros l Hrep; [done|].
      destruct ev; simpl in *; try (by apply IH).
      - destruct Hrep. split; [done|]. by apply IH.
      - destruct Hrep. split; [done|]. by apply IH. }
    by destruct (initialized (ray w)). }
  by apply replay_split in Hrep'.
Qed.

(** C5: wherever the barrier call stands in the trace of [run], it is the
    last call, [run] returns, every stage of the pipeline was dispatched
    before it, its object ids are those the table holds, one per stage and
    from those dispatches, and [num_returns] is the number of stages.  So
    the barrier [ray.wait], called with these arguments where [run] calls
    it, returns every one of the object ids as ready and none as not
    ready, and each of them is an object of the substrate with an outcome,
    success or failure: the barrier returns only once all have resolved.
    And in a topological order [run] does call the barrier. *)
Theorem run_barrier_after_all_dispatched
    (Stage_run : StageArgs → Outcome) (env : option Environment) (w : World) :
  PyDict.wf (pipeline (self w)) →
  (∀ t1 ids k t2,
      (run Stage_run env w).2 = t1 ++ EvWait ids k :: t2 →
      t2 = []
      ∧ (run Stage_run env w).1.1 = Returned ()
      ∧ dispatched t1 = PyDict.keys (pipeline (self w))
      ∧ ids = PyDict.values (stores t1)
      ∧ ids = (runs t1).*2
      ∧ k = length (pipeline (self w))
      ∧ length ids = k
      ∧ take k ids = ids ∧ drop k ids = []
      ∧ (ray_wait ids k (run Stage_run env w).1.2).1.1 = Returned (ids, [])
      ∧ Forall (λ h, is_Some (objects (ray (run Stage_run env w).1.2) !! h))
          ids)
  ∧ (topological [] (pipeline (self w)) = true →
     ∃ t1 ids,
       (run Stage_run env w).2
         = t1 ++ [EvWait ids (length (pipeline (self w)))]).
Proof.
  intros Hwf. rewrite run_unfold. cbn zeta.
  set (env' := run_environment env (self w)).
  pose proof (run_loop_frame Stage_run (Pipeline_new (pipeline (self w)))
                env' (pipeline (self w)) [] (loop_entry env' w))
    as (_ & _ & Hev).
  pose proof (run_loop_returned Stage_run (Pipeline_new (pipeline (self w)))
                env' (pipeline (self w)) [] (loop_entry env' w)) as Hret.
  pose proof (run_loop_total Stage_run (Pipeline_new (pipeline (self w)))
                env' (pipeline (self w)) [] (loop_entry env' w)
                (wf_schemas _ Hwf) Hwf) as Htot.
  pose proof (run_loop_objects (Pipeline_new (pipeline (self w))) env'
                Stage_run (pipeline (self w)) [] (loop_entry env' w))
    as [Hobjs Hids].
  destruct (run_loop _ _ _ _ _ _) as [[[tbl|e] w'] tr]; cbn [fst snd] in *.
  - destruct (Hret tbl w' tr) as (Htbl & Hdisp & Hst & _ & _);
      [by apply wf_schemas|done|done|].
    simpl in Htbl. subst tbl.
    assert (Hlen : length (stores tr) = length (pipeline (self w))).
    { rewrite <- (length_fmap fst (stores tr)),
        <- (length_fmap fst (pipeline (self w))).
      f_equal. rewrite Hst, <- list_fmap_compose. exact Hdisp. }
    split.
    + intros t1 ids k t2 Heq. rewrite app_assoc in Heq.
      apply wait_split in Heq as (-> & -> & -> & ->).
      2:{ apply Forall_app. split; [apply entry_events_not_blocking|].
          eapply Forall_impl; [exact Hev|]. intros ev.
          apply loop_event_not_blocking. }
      unfold dispatched. rewrite runs_entry_events, stores_entry_events.
      unfold PyDict.values, PyDict.len.
      split; [done|]. split; [done|]. split; [done|]. split; [done|].
      split; [by rewrite Hst, <- list_fmap_compose|].
      split; [done|]. split; [by rewrite length_fmap|].
      assert (Hall : take (length (stores tr)) (stores tr).*2 = (stores tr).*2
                     ∧ drop (length (stores tr)) (stores tr).*2 = []).
      { rewrite <- (length_fmap snd (stores tr)).
        by rewrite firstn_all, drop_all. }
      destruct Hall as [Htake Hdrop].
      split; [done|]. split; [done|]. split.
      { unfold ray_wait. cbn [fst]. by rewrite Htake, Hdrop. }
      assert (Hsnd : (stores tr).*2 = (runs tr).*2)
        by (by rewrite Hst, <- list_fmap_compose).
      rewrite Hsnd, Hids. apply Forall_forall. intros h Hh.
      apply elem_of_seq in Hh. apply lookup_lt_is_Some.
      rewrite Hobjs, length_app, length_fmap. lia.
    + intros _. eexists _, _. rewrite app_assoc.
      unfold PyDict.len. rewrite Hlen. reflexivity.
  - split.
    + intros t1 ids k t2 Heq. exfalso.
      assert (Hnb : Forall (λ ev, blocking ev = false)
                      (entry_events env' w ++ tr)).
      { apply Forall_app. split; [apply entry_events_not_blocking|].
        eapply Forall_impl; [exact Hev|]. intros ev.
        apply loop_event_not_blocking. }
      rewrite Heq in Hnb. apply Forall_app in Hnb as [_ Hnb].
      by apply Forall_cons in Hnb as [? _].
    + intros Htop. by destruct (Htot Htop) as (? & ? & ? & ?).
Qed.

(** C3: when the declaration order places a stage before one of its
    immediate dependencies, [run] raises [KeyError] (the spec's
    [UnresolvedDependencyError]) for a dependency that is not yet in the
    table, while it processes the first stage that has one: that stage is
    the given one or an earlier one, and it is the given one when the
    stages before it are in a topological order.  The stages before it
    were dispatched, it and the given stage were not; and stage and
    dependency are the same for every substrate state, environment and
    outcome of the stages' work. *)
Theorem run_raises_on_misplaced_stage
    (items pre post : list (string * Schema)) (n d : string) (s : Schema) :
  PyDict.wf items →
  items = pre ++ (n, s) :: post →
  d ∈ immediate_dependencies s →
  d ∈ PyDict.keys post →
  ∃ pre' n' s' post' d',
    items = pre' ++ (n', s') :: post'
    ∧ pre' `prefix_of` pre
    ∧ (topological [] pre = true → pre' = pre ∧ n' = n ∧ s' = s)
    ∧ d' ∈ immediate_dependencies s'
    ∧ (d' ∉ PyDict.keys pre')
    ∧ (n ∉ PyDict.keys pre')
    ∧ ∀ Stage_run env w,
        pipeline (self w) = items →
        (run Stage_run env w).1.1 = Raised (KeyError d')
        ∧ dispatched (run Stage_run env w).2 = PyDict.keys pre'.
Proof.
  intros Hwf Hitems Hd Hpost.
  assert (Hdpre : d ∉ PyDict.keys pre).
  { unfold PyDict.wf, PyDict.keys in *. rewrite Hitems in Hwf.
    rewrite fmap_app, fmap_cons in Hwf.
    apply NoDup_app in Hwf as (_ & Hdis & _). intros Hin.
    apply (Hdis d Hin). by right. }
  assert (Hnpre : n ∉ PyDict.keys pre).
  { unfold PyDict.wf, PyDict.keys in *. rewrite Hitems in Hwf.
    rewrite fmap_app, fmap_cons in Hwf.
    apply NoDup_app in Hwf as (_ & Hdis & _). intros Hin.
    apply (Hdis n Hin). by left. }
  assert (Hbad : forallb (λ d0, bool_decide (d0 ∈ PyDict.keys pre))
                   (immediate_dependencies s) = false).
  { apply not_true_is_false. intros Hall. apply forallb_seen in Hall.
    rewrite Forall_forall in Hall. by apply Hdpre, Hall. }
  assert (Htop : topological [] items = false).
  { rewrite Hitems, topological_app. simpl. rewrite Hbad. simpl.
    apply andb_false_r. }
  destruct (run_loop_raises (Pipeline_new items) items []
              (wf_schemas _ Hwf) Htop)
    as (pre' & n' & s' & post' & d' & Heq & Hpre' & Hd' & Hout' & Hrun).
  assert (Hpref : pre' `prefix_of` pre
                  ∧ (topological [] pre = true → pre' = pre ∧ n' = n ∧ s' = s)).
  { rewrite Hitems in Heq. apply app_eq_inv in Heq as [(k & -> & Hk)|(k & -> & Hk)].
    - split; [by exists k|]. intros Htp.
      destruct k as [|[n0 s0] k].
      + rewrite app_nil_r. simpl in Hk. by injection Hk as -> ->.
      + exfalso. simpl in Hk. injection Hk as <- <- _.
        rewrite topological_app in Htp. apply andb_prop in Htp as [_ Htp].
        simpl in Htp. apply andb_prop in Htp as [Htp _].
        apply forallb_seen in Htp. rewrite Forall_forall in Htp.
        simpl in Hout'. by apply Hout', Htp.
    - destruct k as [|[n0 s0] k].
      + rewrite app_nil_r. split; [done|]. intros _.
        simpl in Hk. by injection Hk as -> ->.
      + exfalso. simpl in Hk. injection Hk as <- <- _.
        rewrite topological_app in Hpre'. apply andb_prop in Hpre' as [_ Htp].
        simpl in Htp. apply andb_prop in Htp as [Htp _].
        rewrite Hbad in Htp. done. }
  destruct Hpref as [Hpref Hfirst].
  exists pre', n', s', post', d'. split; [done|]. split; [done|].
  split; [done|]. split; [done|]. split; [done|]. split.
  { intros Hin. apply Hnpre. destruct Hpref as [k ->].
    unfold PyDict.keys in *. rewrite fmap_app. apply elem_of_app. by left. }
  intros Stage_run env w Hw. rewrite run_unfold. cbn zeta. rewrite Hw.
  destruct (Hrun Stage_run (run_environment env (self w)) []
              (loop_entry (run_environment env (self w)) w))
    as (w' & tr & Hloop & Hdisp); [done|done|].
  rewrite Hloop. cbn [fst snd]. unfold dispatched in *.
  by rewrite runs_entry_events.
Qed.

(** ** The theorems at the example pipelines *)

(** C3 at the pipeline [{X: depends on Y}] declared as [X, Y]. *)
Lemma run_raises_on_misplaced_stage_witness :
  ∃ pre' n' s' post' d',
    misordered = pre' ++ (n', s') :: post'
    ∧ pre' `prefix_of` []
    ∧ (topological [] [] = true
       → pre' = [] ∧ n' = "X" ∧ s' = {| links := ["Y"] |})
    ∧ d' ∈ immediate_dependencies s'
    ∧ (d' ∉ PyDict.keys pre')
    ∧ ("X" ∉ PyDict.keys pre')
    ∧ ∀ Stage_run env w,
        pipeline (self w) = misordered →
        (run Stage_run env w).1.1 = Raised (KeyError d')
        ∧ dispatched (run Stage_run env w).2 = PyDict.keys pre'.
Proof.
  apply (run_raises_on_misplaced_stage misordered []
           [("Y", {| links := [] |})] "X" "Y" {| links := ["Y"] |}).
  - apply (bool_decide_unpack _). vm_compute. exact I.
  - reflexivity.
  - apply (bool_decide_unpack _). vm_compute. exact I.
  - apply (bool_decide_unpack _). vm_compute. exact I.
Defined.

(** C4 at the pipeline [{A, B: depends on A, C: depends on A}]. *)
Lemma run_dispatches_in_dependency_order_witness :
  (run (λ _, Succeeded) None (world_of fan_out fresh_ray)).1.1 = Returned ()
  ∧ dispatched (run (λ _, Succeeded) None (world_of fan_out fresh_ray)).2
    = PyDict.keys (pipeline (self (world_of fan_out fresh_ray)))
  ∧ stores (run (λ _, Succeeded) None (world_of fan_out fresh_ray)).2
    = (λ p, (st_name (actor_args p.1), p.2))
        <$> runs (run (λ _, Succeeded) None (world_of fan_out fresh_ray)).2
  ∧ PyDict.wf
      (stores (run (λ _, Succeeded) None (world_of fan_out fresh_ray)).2)
  ∧ ∀ t1 a h t2,
      (run (λ _, Succeeded) None (world_of fan_out fresh_ray)).2
        = t1 ++ EvRun a h :: t2 →
      ∃ s, (st_name (actor_args a), s)
             ∈ pipeline (self (world_of fan_out fresh_ray))
           ∧ dependencies (st_pipeline (actor_args a))
               = immediate_dependencies s
           ∧ Forall2 (λ d id, PyDict.get d (stores t1) = Some id)
               (immediate_dependencies s)
               (st_dependencies (actor_args a)).
Proof.
  apply (run_dispatches_in_dependency_order (λ _, Succeeded) None
           (world_of fan_out fresh_ray)).
  - apply (bool_decide_unpack _). vm_compute. exact I.
  - reflexivity.
Defined.

(** C5 at the pipeline [{A, B: depends on A, C: depends on A}]. *)
Lemma run_barrier_after_all_dispatched_witness :
  (∀ t1 ids k t2,
      (run (λ _, Succeeded) None (world_of fan_out fresh_ray)).2
        = t1 ++ EvWait ids k :: t2 →
      t2 = []
      ∧ (run (λ _, Succeeded) None (world_of fan_out fresh_ray)).1.1
        = Returned ()
      ∧ dispatched t1
        = PyDict.keys (pipeline (self (world_of fan_out fresh_ray)))
      ∧ ids = PyDict.values (stores t1)
      ∧ ids = (runs t1).*2
      ∧ k = length (pipeline (self (world_of fan_out fresh_ray)))
      ∧ length ids = k
      ∧ take k ids = ids ∧ drop k ids = []
      ∧ (ray_wait ids k
           (run (λ _, Succeeded) None (world_of fan_out fresh_ray)).1.2).1.1
        = Returned (ids, [])
      ∧ Forall (λ h, is_Some
                       (objects
                          (ray (run (λ _, Succeeded) None
                                  (world_of fan_out fresh_ray)).1.2) !! h))
          ids)
  ∧ (topological [] (pipeline (self (world_of fan_out fresh_ray))) = true →
     ∃ t1 ids,
       (run (λ _, Succeeded) None (world_of fan_out fresh_ray)).2
         = t1 ++ [EvWait ids
                    (length (pipeline (self (world_of fan_out fresh_ray))))]).
Proof.
  apply (run_barrier_after_all_dispatched (λ _, Succeeded) None
           (world_of fan_out fresh_ray)).
  apply (bool_decide_unpack _). vm_compute. exact I.
Defined.

(** C7 at a substrate that is already initialised. *)
Lemma run_init_idempotent_witness :
  initialized
    (ray (run (λ _, Succeeded) None
            (world_of fan_out
               {| initialized := Some ("auto", true);
                  actors := []; objects := [] |})).1.2)
    = Some ("auto", true)
  ∧ Forall (λ ev, ∀ address local_mode, ev ≠ EvInit address local_mode)
      (run (λ _, Succeeded) None
         (world_of fan_out
            {| initialized := Some ("auto", true);
               actors := []; objects := [] |})).2.
Proof.
  apply (run_init_idempotent (λ _, Succeeded) None
           (world_of fan_out
              {| initialized := Some ("auto", true);
                 actors := []; objects := [] |})).
  simpl. by eexists.
Defined.

(** * Further properties of [run] *)

Section RunMore.
Variable Stage_run : StageArgs → Outcome.

(** What [run] leaves of the world it started in. *)
Lemma run_frame (env : option Environment) (w : World) :
  self (run Stage_run env w).1.2 = self w
  ∧ is_Some (initialized (ray (run Stage_run env w).1.2)).
Proof.
  rewrite run_unfold. cbn zeta.
  pose proof (run_loop_frame Stage_run (Pipeline_new (pipeline (self w)))
                (run_environment env (self w)) (pipeline (self w)) []
                (loop_entry (run_environment env (self w)) w))
    as (Hself & Hinit & _).
  assert (Hentry : is_Some (initialized
                              (ray (loop_entry
                                      (run_environment env (self w)) w)))).
  { unfold loop_entry. destruct (initialized (ray w)) eqn:Hi; simpl.
    - by rewrite Hi.
    - by eexists. }
  destruct (run_loop _ _ _ _ _ _) as [[[tbl|e] w2] t]; simpl in *;
    rewrite Hself, Hinit, loop_entry_self; done.
Qed.

(** The loop creates one actor per dispatch and runs it at once. *)
Lemma run_loop_actors pl env items :
  ∀ tbl w,
    created (run_loop Stage_run pl env items tbl w).2
      = (runs (run_loop Stage_run pl env items tbl w).2).*1
    ∧ actors (ray (run_loop Stage_run pl env items tbl w).1.2)
      = actors (ray w)
          ++ (actor_args <$> created (run_loop Stage_run pl env items tbl w).2).
Proof.
  induction items as [|[stage s0] items IH]; intros tbl w.
  { simpl. by rewrite app_nil_r. }
  rewrite run_loop_cons.
  destruct (run_stage_cases Stage_run pl env stage tbl w)
    as [(s & ids & Hs & Hd & ->) | (e & ->)].
  - specialize (IH (PyDict.set stage (length (objects (ray w))) tbl)
                   (after_dispatch
                      (Stage_run (stage_args (self w) env stage s ids))
                      (stage_args (self w) env stage s ids) w)).
    destruct (run_loop _ _ _ _ _ _) as [[r w2] t2].
    cbn [fst snd app] in *. destruct IH as [Hc Ha].
    rewrite runs_chunk.
    change (created (EvRemote ?a :: EvRun ?b ?o :: EvStore ?n ?o' :: t2))
      with (a :: created t2).
    split.
    + rewrite fmap_cons. by rewrite Hc.
    + rewrite Ha. simpl. by rewrite <- app_assoc.
  - simpl. by rewrite app_nil_r.
Qed.

(** The stages the loop dispatches are a prefix of the declaration
    order. *)
Lemma run_loop_dispatched_prefix env (items : list (string * Schema)) w :
  PyDict.wf items →
  dispatched
    (run_loop Stage_run (Pipeline_new items) env items [] w).2
    `prefix_of` PyDict.keys items.
Proof.
  intros Hwf. destruct (topological [] items) eqn:Htop.
  - destruct (run_loop_total Stage_run (Pipeline_new items) env items [] w)
      as (tbl & w' & tr & Hloop); [by apply wf_schemas|done|done|].
    destruct (run_loop_returned Stage_run (Pipeline_new items) env items []
                w tbl w' tr) as (_ & Hdisp & _); [by apply wf_schemas|done|done|].
    rewrite Hloop. simpl. by rewrite Hdisp.
  - destruct (run_loop_raises (Pipeline_new items) items []
                (wf_schemas _ Hwf) Htop)
      as (pre & n & s & post & d & Heq & _ & _ & _ & Hrun).
    destruct (Hrun Stage_run env [] w) as (w' & tr & -> & Hdisp); [done|done|].
    simpl. rewrite Hdisp. unfold PyDict.keys.
    exists (((n, s) :: post).*1). rewrite <- fmap_app. by rewrite <- Heq.
Qed.

(** X1: with distinct stage names, [run] returns exactly when every
    stage's immediate dependencies are declared before it. *)
Theorem run_returns_iff_topological (env : option Environment) (w : World) :
  PyDict.wf (pipeline (self w)) →
  (run Stage_run env w).1.1 = Returned ()
  ↔ topological [] (pipeline (self w)) = true.
Proof.
  intros Hwf. rewrite run_unfold. cbn zeta.
  set (env' := run_environment env (self w)).
  destruct (topological [] (pipeline (self w))) eqn:Htop.
  - destruct (run_loop_total Stage_run (Pipeline_new (pipeline (self w))) env'
                (pipeline (self w)) [] (loop_entry env' w))
      as (tbl & w' & tr & ->); [by apply wf_schemas|done|done|]. done.
  - destruct (run_loop_raises (Pipeline_new (pipeline (self w)))
                (pipeline (self w)) [] (wf_schemas _ Hwf) Htop)
      as (pre & n & s & post & d & _ & _ & _ & _ & Hrun).
    destruct (Hrun Stage_run env' [] (loop_entry env' w))
      as (w' & tr & -> & _); [done|done|]. done.
Qed.

(** X3: on a substrate that is not initialised, the first call of [run]
    is [ray.init("auto", local_mode=env.debug)], for the environment
    given or built from [save_path]; there is no second such call, and
    the substrate is initialised so afterwards, whether [run] returns or
    raises. *)
Theorem run_initialises_once (env : option Environment) (w : World) :
  initialized (ray w) = None →
  ∃ rest,
    (run Stage_run env w).2
      = EvInit "auto" (debug (run_environment env (self w))) :: rest
    ∧ Forall (λ ev, ∀ address local_mode, ev ≠ EvInit address local_mode) rest
    ∧ initialized (ray (run Stage_run env w).1.2)
      = Some ("auto", debug (run_environment env (self w))).
Proof.
  intros Hi. rewrite run_unfold. cbn zeta.
  set (env' := run_environment env (self w)).
  pose proof (run_loop_frame Stage_run (Pipeline_new (pipeline (self w)))
                env' (pipeline (self w)) [] (loop_entry env' w))
    as (_ & Hinit & Hev).
  rewrite loop_entry_self in Hev.
  assert (Hno : Forall (λ ev, ∀ a m, ev ≠ EvInit a m)
                  (run_loop Stage_run (Pipeline_new (pipeline (self w))) env'
                     (pipeline (self w)) [] (loop_entry env' w)).2).
  { eapply Forall_impl; [exact Hev|]. intros ev Hl a m ->. done. }
  unfold entry_events. rewrite Hi.
  assert (Hentry : initialized (ray (loop_entry env' w))
                   = Some ("auto", debug env')).
  { unfold loop_entry. by rewrite Hi. }
  rewrite Hentry in Hinit.
  destruct (run_loop _ _ _ _ _ _) as [[[tbl|e] w2] t]; simpl in *.
  - eexists. split; [reflexivity|]. split; [|done].
    apply Forall_app. split; [done|]. by repeat constructor.
  - eexists. split; [reflexivity|]. by split.
Qed.

(** X4: every stage is dispatched with the experiment's [reduce] entry
    for it ([None] without one) and with one and the same environment, the
    one given or the one built from [save_path]; and the actors created
    are, in order, the actors whose work is submitted: none is left
    without its work. *)
Theorem run_passes_reduce_and_environment (env : option Environment)
    (w : World) :
  Forall (λ ev, match ev with
                | EvRemote a | EvRun a _ =>
                    st_reductions (actor_args a)
                      = reduce (self w) !! st_name (actor_args a)
                    ∧ st_environment (actor_args a)
                      = run_environment env (self w)
                | _ => True
                end)
    (run Stage_run env w).2
  ∧ created (run Stage_run env w).2 = (runs (run Stage_run env w).2).*1.
Proof.
  rewrite run_unfold. cbn zeta.
  set (env' := run_environment env (self w)).
  pose proof (run_loop_frame Stage_run (Pipeline_new (pipeline (self w)))
                env' (pipeline (self w)) [] (loop_entry env' w))
    as (_ & _ & Hev).
  pose proof (run_loop_actors (Pipeline_new (pipeline (self w)))
                env' (pipeline (self w)) [] (loop_entry env' w))
    as [Hc _].
  rewrite loop_entry_self in Hev.
  assert (Hloop : Forall (λ ev, match ev with
                | EvRemote a | EvRun a _ =>
                    st_reductions (actor_args a)
                      = reduce (self w) !! st_name (actor_args a)
                    ∧ st_environment (actor_args a) = env'
                | _ => True
                end)
                (run_loop Stage_run (Pipeline_new (pipeline (self w))) env'
                     (pipeline (self w)) [] (loop_entry env' w)).2).
  { eapply Forall_impl; [exact Hev|]. intros [] Hl; try done.
    - by destruct Hl as (? & _ & _ & ?).
    - by destruct Hl as (? & _ & _ & ?). }
  assert (He : ∀ t, created (entry_events env' w ++ t) = created t).
  { intros t. unfold entry_events. by destruct (initialized (ray w)). }
  assert (Hent : Forall (λ ev, match ev with
                | EvRemote a | EvRun a _ =>
                    st_reductions (actor_args a)
                      = reduce (self w) !! st_name (actor_args a)
                    ∧ st_environment (actor_args a) = env'
                | _ => True
                end) (entry_events env' w)).
  { unfold entry_events. destruct (initialized (ray w)); by repeat constructor. }
  destruct (run_loop _ _ _ _ _ _) as [[[tbl|e] w2] t]; simpl in *.
  - split.
    + apply Forall_app. split; [done|]. apply Forall_app. split; [done|].
      by repeat constructor.
    + rewrite He, runs_entry_events, runs_wait_last.
      unfold created. rewrite omap_app. simpl. rewrite app_nil_r. exact Hc.
  - split.
    + apply Forall_app. by split.
    + by rewrite He, runs_entry_events.
Qed.

(** X5: with distinct stage names no stage is dispatched twice, whether
    [run] returns or raises: the stages dispatched are an initial part of
    the declaration order. *)
Theorem run_dispatches_no_stage_twice (env : option Environment) (w : World) :
  PyDict.wf (pipeline (self w)) →
  dispatched (run Stage_run env w).2
    `prefix_of` PyDict.keys (pipeline (self w))
  ∧ NoDup (dispatched (run Stage_run env w).2).
Proof.
  intros Hwf.
  assert (Hp : dispatched (run Stage_run env w).2
                 `prefix_of` PyDict.keys (pipeline (self w))).
  { rewrite run_unfold. cbn zeta.
    pose proof (run_loop_dispatched_prefix (run_environment env (self w))
                  (pipeline (self w))
                  (loop_entry (run_environment env (self w)) w) Hwf) as Hp.
    destruct (run_loop _ _ _ _ _ _) as [[[tbl|e] w2] t]; simpl in *;
      unfold dispatched in *.
    - by rewrite runs_entry_events, runs_wait_last.
    - by rewrite runs_entry_events. }
  split; [done|]. destruct Hp as [k Hk]. unfold PyDict.wf in Hwf.
  rewrite Hk in Hwf. by apply NoDup_app in Hwf as [? _].
Qed.
End RunMore.

Section RunAgain.
Variable Stage_run : StageArgs → Outcome.

Lemma run_actors (env : option Environment) (w : World) :
  actors (ray (run Stage_run env w).1.2)
  = actors (ray w)
      ++ ((λ p, actor_args p.1) <$> runs (run Stage_run env w).2).
Proof.
  rewrite run_unfold. cbn zeta.
  set (env' := run_environment env (self w)).
  pose proof (run_loop_actors Stage_run (Pipeline_new (pipeline (self w)))
                env' (pipeline (self w)) [] (loop_entry env' w))
    as [Hc Ha].
  rewrite Hc, <- list_fmap_compose in Ha.
  assert (Hentry : actors (ray (loop_entry env' w)) = actors (ray w)).
  { unfold loop_entry. by destruct (initialized (ray w)). }
  rewrite Hentry in Ha.
  destruct (run_loop _ _ _ _ _ _) as [[[tbl|e] w2] t]; simpl in *.
  - by rewrite runs_entry_events, runs_wait_last.
  - by rewrite runs_entry_events.
Qed.

Lemma run_valid_dispatched (env : option Environment) (w : World) :
  PyDict.wf (pipeline (self w)) →
  topological [] (pipeline (self w)) = true →
  (run Stage_run env w).1.1 = Returned ()
  ∧ dispatched (run Stage_run env w).2 = PyDict.keys (pipeline (self w)).
Proof.
  intros Hwf Htop. rewrite run_unfold. cbn zeta.
  set (env' := run_environment env (self w)).
  destruct (run_loop_total Stage_run (Pipeline_new (pipeline (self w))) env'
              (pipeline (self w)) [] (loop_entry env' w))
    as (tbl & w' & tr & Hloop); [by apply wf_schemas|done|done|].
  destruct (run_loop_returned Stage_run (Pipeline_new (pipeline (self w)))
              env' (pipeline (self w)) [] (loop_entry env' w) tbl w' tr)
    as (_ & Hdisp & _); [by apply wf_schemas|done|done|].
  rewrite Hloop. cbn [fst snd]. split; [done|].
  unfold dispatched in *. by rewrite runs_entry_events, runs_wait_last.
Qed.

(** X6: [run] keeps no record of an earlier call.  Called again on the
    same experiment (in a topological order, with distinct stage names) it
    does not initialise the substrate again, dispatches every stage once
    more and returns: the substrate then holds two actors per stage. *)
Theorem run_again_dispatches_again (env : option Environment) (w : World) :
  PyDict.wf (pipeline (self w)) →
  topological [] (pipeline (self w)) = true →
  (run Stage_run env (run Stage_run env w).1.2).1.1 = Returned ()
  ∧ dispatched (run Stage_run env (run Stage_run env w).1.2).2
    = PyDict.keys (pipeline (self w))
  ∧ Forall (λ ev, ∀ address local_mode, ev ≠ EvInit address local_mode)
      (run Stage_run env (run Stage_run env w).1.2).2
  ∧ length (actors (ray (run Stage_run env (run Stage_run env w).1.2).1.2))
    = length (actors (ray w)) + 2 * length (pipeline (self w)).
Proof.
  intros Hwf Htop.
  destruct (run_frame Stage_run env w) as [Hself Hinit].
  destruct (run_valid_dispatched env w Hwf Htop) as [_ Hd1].
  destruct (run_valid_dispatched env (run Stage_run env w).1.2)
    as [Hr2 Hd2]; [by rewrite Hself|by rewrite Hself|].
  rewrite Hself in Hd2.
  split; [done|]. split; [done|]. split.
  - rewrite run_unfold. cbn zeta.
    set (w1 := (run Stage_run env w).1.2) in *.
    set (env' := run_environment env (self w1)).
    pose proof (run_loop_frame Stage_run (Pipeline_new (pipeline (self w1)))
                  env' (pipeline (self w1)) [] (loop_entry env' w1))
      as (_ & _ & Hev).
    assert (Hno : Forall (λ ev, ∀ a m, ev ≠ EvInit a m)
                    (run_loop Stage_run (Pipeline_new (pipeline (self w1)))
                       env' (pipeline (self w1)) [] (loop_entry env' w1)).2).
    { eapply Forall_impl; [exact Hev|]. intros ev Hl a m ->. done. }
    unfold entry_events. destruct Hinit as [i Hi]. rewrite Hi.
    destruct (run_loop _ _ _ _ _ _) as [[[tbl|e] w2] t]; simpl in *; [|done].
    apply Forall_app. split; [done|]. by repeat constructor.
  - rewrite !run_actors, !length_app, !length_fmap.
    unfold dispatched in Hd1, Hd2.
    apply (f_equal length) in Hd1, Hd2.
    unfold PyDict.keys in Hd1, Hd2. rewrite !length_fmap in Hd1, Hd2. lia.
Qed.
End RunAgain.

(** X1 at the pipeline [{A, B: depends on A, C: depends on A}]. *)
Lemma run_returns_iff_topological_witness :
  (run (λ _, Succeeded) None (world_of fan_out fresh_ray)).1.1 = Returned ()
  ↔ topological [] (pipeline (self (world_of fan_out fresh_ray))) = true.
Proof.
  apply (run_returns_iff_topological (λ _, Succeeded) None
           (world_of fan_out fresh_ray)).
  apply (bool_decide_unpack _). vm_compute. exact I.
Defined.

(** X3 at a substrate that is not initialised. *)
Lemma run_initialises_once_witness :
  ∃ rest,
    (run (λ _, Succeeded) None (world_of fan_out fresh_ray)).2
      = EvInit "auto"
          (debug (run_environment None (self (world_of fan_out fresh_ray))))
          :: rest
    ∧ Forall (λ ev, ∀ address local_mode, ev ≠ EvInit address local_mode) rest
    ∧ initialized
        (ray (run (λ _, Succeeded) None (world_of fan_out fresh_ray)).1.2)
      = Some ("auto",
              debug (run_environment None
                       (self (world_of fan_out fresh_ray)))).
Proof.
  apply (run_initialises_once (λ _, Succeeded) None
           (world_of fan_out fresh_ray)).
  reflexivity.
Defined.

(** X5 at the pipeline [{X: depends on Y}] declared as [X, Y]. *)
Lemma run_dispatches_no_stage_twice_witness :
  dispatched (run (λ _, Succeeded) None (world_of misordered fresh_ray)).2
    `prefix_of` PyDict.keys (pipeline (self (world_of misordered fresh_ray)))
  ∧ NoDup
      (dispatched (run (λ _, Succeeded) None (world_of misordered fresh_ray)).2).
Proof.
  apply (run_dispatches_no_stage_twice (λ _, Succeeded) None
           (world_of misordered fresh_ray)).
  apply (bool_decide_unpack _). vm_compute. exact I.
Defined.

(** X6 at the pipeline [{A, B: depends on A, C: depends on A}]. *)
Lemma run_again_dispatches_again_witness :
  (run (λ _, Succeeded) None
     (run (λ _, Succeeded) None (world_of fan_out fresh_ray)).1.2).1.1
    = Returned ()
  ∧ dispatched
      (run (λ _, Succeeded) None
         (run (λ _, Succeeded) None (world_of fan_out fresh_ray)).1.2).2
    = PyDict.keys (pipeline (self (world_of fan_out fresh_ray)))
  ∧ Forall (λ ev, ∀ address local_mode, ev ≠ EvInit address local_mode)
      (run (λ _, Succeeded) None
         (run (λ _, Succeeded) None (world_of fan_out fresh_ray)).1.2).2
  ∧ length
      (actors
         (ray (run (λ _, Succeeded) None
                 (run (λ _, Succeeded) None
                    (world_of fan_out fresh_ray)).1.2).1.2))
    = length (actors (ray (world_of fan_out fresh_ray)))
      + 2 * length (pipeline (self (world_of fan_out fresh_ray))).
Proof.
  apply (run_again_dispatches_again (λ _, Succeeded) None
           (world_of fan_out fresh_ray)).
  - apply (bool_decide_unpack _). vm_compute. exact I.
  - reflexivity.
Defined.

(** * Further properties of [rel_to_abs_paths] *)

Lemma set_middle {V : Type} (d1 d2 : list (string * V)) k v0 v :
  k ∉ PyDict.keys d1 →
  PyDict.set k v (d1 ++ (k, v0) :: d2) = d1 ++ (k, v) :: d2.
Proof.
  unfold PyDict.keys. induction d1 as [|[k1 v1] d1 IH]; csimpl; intros Hk.
  - by rewrite decide_True.
  - apply not_elem_of_cons in Hk as [Hne Hk].
    rewrite decide_False by done. f_equal. by apply IH.
Qed.

Section PathMore.
Variable os_path_exists : string → bool.
Variable os_path_isabs : string → bool.
Variable os_path_abspath : string → string.

Lemma keys_abs_item (d : list (string * string)) :
  PyDict.keys (abs_item os_path_exists os_path_isabs os_path_abspath <$> d)
  = PyDict.keys d.
Proof.
  unfold PyDict.keys. rewrite <- list_fmap_compose. by apply list_fmap_ext.
Qed.

(** The loop converts the items from its position on, one by one and in
    place. *)
Lemma items_loop_converts (rest : list (string * string)) :
  ∀ (pre : list (string * string)) (s : list (list (string * string))),
    PyDict.wf (pre ++ rest) →
    Path.items_loop os_path_exists os_path_isabs os_path_abspath
      (length rest) (length pre) (length s) (s ++ [pre ++ rest])
    = s ++ [pre ++ (abs_item os_path_exists os_path_isabs os_path_abspath
                       <$> rest)].
Proof.
  induction rest as [|[k v] rest IH]; intros pre s Hwf; [done|].
  cbn [length Path.items_loop].
  rewrite list_lookup_middle by done. cbn [mbind option_bind].
  rewrite list_lookup_middle by done.
  assert (Hk : k ∉ PyDict.keys pre).
  { unfold PyDict.wf, PyDict.keys in *. rewrite fmap_app, fmap_cons in Hwf.
    apply NoDup_app in Hwf as (_ & Hdis & _). intros Hin.
    apply (Hdis k Hin). by left. }
  rewrite fmap_cons. unfold abs_item at 1. cbn [fst snd].
  destruct (os_path_exists v && negb (os_path_isabs v)) eqn:Hc.
  - rewrite setitem_last, set_middle by done.
    rewrite (cons_middle _ pre rest), (cons_middle _ pre (_ <$> rest)).
    rewrite (app_assoc pre [_] rest), (app_assoc pre [_] (_ <$> rest)).
    replace (S (length pre))
      with (length (pre ++ [(k, os_path_abspath v)]))
      by (rewrite length_app; simpl; lia).
    apply IH. unfold PyDict.wf, PyDict.keys in *.
    rewrite !fmap_app in *. rewrite fmap_cons in Hwf. csimpl in *.
    by rewrite <- app_assoc.
  - rewrite (cons_middle _ pre rest), (cons_middle _ pre (_ <$> rest)).
    rewrite (app_assoc pre [_] rest), (app_assoc pre [_] (_ <$> rest)).
    replace (S (length pre)) with (length (pre ++ [(k, v)]))
      by (rewrite length_app; simpl; lia).
    apply IH. by rewrite <- app_assoc.
Qed.

Lemma rel_to_abs_paths_result (d : nat) (s : list (list (string * string)))
    (dict : list (string * string)) :
  s !! d = Some dict →
  PyDict.wf dict →
  Path.rel_to_abs_paths os_path_exists os_path_isabs os_path_abspath d s
  = Some (length s,
          s ++ [abs_item os_path_exists os_path_isabs os_path_abspath
                  <$> dict]).
Proof.
  intros Hd Hwf. unfold Path.rel_to_abs_paths, Path.alloc. rewrite Hd.
  unfold PyDict.len. f_equal. f_equal.
  exact (items_loop_converts dict [] s Hwf).
Qed.

(** X7: [rel_to_abs_paths] returns a new dictionary that holds, for each
    item of its argument and in the same order, the key with the value
    made absolute when it is an existing relative path and with the
    value itself otherwise. *)
Theorem rel_to_abs_paths_converts (d : nat)
    (s : list (list (string * string))) (dict : list (string * string)) :
  s !! d = Some dict →
  PyDict.wf dict →
  ∃ ret s',
    Path.rel_to_abs_paths os_path_exists os_path_isabs os_path_abspath d s
      = Some (ret, s')
    ∧ s' !! ret
      = Some (abs_item os_path_exists os_path_isabs os_path_abspath <$> dict)
    ∧ ∀ k v, PyDict.get k dict = Some v →
             os_path_exists v = true → os_path_isabs v = false →
             s' !! ret ≫= PyDict.get k = Some (os_path_abspath v).
Proof.
  intros Hd Hwf. eexists _, _.
  split; [by apply rel_to_abs_paths_result|].
  split; [by rewrite list_lookup_middle|].
  intros k v Hget Hex Hab. rewrite list_lookup_middle by done.
  cbn [mbind option_bind]. apply elem_get_wf.
  - unfold PyDict.wf. by rewrite keys_abs_item.
  - apply list_elem_of_fmap. exists (k, v). split.
    + unfold abs_item. simpl. by rewrite Hex, Hab.
    + by apply get_Some_elem.
Qed.

(** X8: when [os.path.abspath] returns absolute paths, converting the
    converted dictionary changes nothing: the second result has the items
    of the first. *)
Theorem rel_to_abs_paths_idempotent (d : nat)
    (s : list (list (string * string))) (dict : list (string * string)) :
  (∀ v, os_path_isabs (os_path_abspath v) = true) →
  s !! d = Some dict →
  PyDict.wf dict →
  ∃ ret1 s1 ret2 s2,
    Path.rel_to_abs_paths os_path_exists os_path_isabs os_path_abspath d s
      = Some (ret1, s1)
    ∧ Path.rel_to_abs_paths os_path_exists os_path_isabs os_path_abspath
        ret1 s1 = Some (ret2, s2)
    ∧ ret2 ≠ ret1
    ∧ is_Some (s2 !! ret2)
    ∧ s2 !! ret2 = s1 !! ret1.
Proof.
  intros Habs Hd Hwf. eexists _, _, _, _.
  split; [by apply rel_to_abs_paths_result|].
  split.
  { apply rel_to_abs_paths_result.
    - by apply list_lookup_middle.
    - unfold PyDict.wf. by rewrite keys_abs_item. }
  rewrite length_app. simpl.
  split; [lia|].
  rewrite (list_lookup_middle (s ++ [_]) [] _ _) by (rewrite length_app; simpl; lia).
  split; [by eexists|].
  rewrite list_lookup_middle by done. f_equal.
  rewrite <- list_fmap_compose. apply list_fmap_ext. intros i [k v] _.
  unfold abs_item. simpl.
  destruct (os_path_exists v && negb (os_path_isabs v)) eqn:Hc; simpl.
  - by rewrite Habs, andb_false_r.
  - by rewrite Hc.
Qed.
End PathMore.

(** X7 on a file system where only the relative path [out] exists. *)
Lemma rel_to_abs_paths_converts_witness :
  ∃ ret s',
    Path.rel_to_abs_paths (λ v, bool_decide (v = "out"))
      (λ v, String.prefix "/" v) (λ v, "/cwd/" +:+ v)
      0 [[("data", "/srv/data"); ("model", "out")]] = Some (ret, s')
    ∧ s' !! ret
      = Some (abs_item (λ v, bool_decide (v = "out"))
                (λ v, String.prefix "/" v) (λ v, "/cwd/" +:+ v)
                <$> [("data", "/srv/data"); ("model", "out")])
    ∧ ∀ k v,
        PyDict.get k [("data", "/srv/data"); ("model", "out")] = Some v →
        bool_decide (v = "out") = true → String.prefix "/" v = false →
        s' !! ret ≫= PyDict.get k = Some ("/cwd/" +:+ v).
Proof.
  apply (rel_to_abs_paths_converts (λ v, bool_decide (v = "out"))
           (λ v, String.prefix "/" v) (λ v, "/cwd/" +:+ v)
           0 [[("data", "/srv/data"); ("model", "out")]]
           [("data", "/srv/data"); ("model", "out")]).
  - reflexivity.
  - apply (bool_decide_unpack _). vm_compute. exact I.
Defined.

(** X8 on the same file system. *)
Lemma rel_to_abs_paths_idempotent_witness :
  ∃ ret1 s1 ret2 s2,
    Path.rel_to_abs_paths (λ v, bool_decide (v = "out"))
      (λ v, String.prefix "/" v) (λ v, "/cwd/" +:+ v)
      0 [[("data", "/srv/data"); ("model", "out")]] = Some (ret1, s1)
    ∧ Path.rel_to_abs_paths (λ v, bool_decide (v = "out"))
        (λ v, String.prefix "/" v) (λ v, "/cwd/" +:+ v)
        ret1 s1 = Some (ret2, s2)
    ∧ ret2 ≠ ret1
    ∧ is_Some (s2 !! ret2)
    ∧ s2 !! ret2 = s1 !! ret1.
Proof.
  apply (rel_to_abs_paths_idempotent (λ v, bool_decide (v = "out"))
           (λ v, String.prefix "/" v) (λ v, "/cwd/" +:+ v)
           0 [[("data", "/srv/data"); ("model", "out")]]
           [("data", "/srv/data"); ("model", "out")]).
  - intros v. reflexivity.
  - reflexivity.
  - apply (bool_decide_unpack _). vm_compute. exact I.
Defined.

(** * Properties of the helpers around the file system *)

Lemma append_String c (s r : string) : String c s +:+ r = String c (s +:+ r).
Proof. reflexivity. Qed.

Lemma append_empty (r : string) : "" +:+ r = r.
Proof. reflexivity. Qed.

Lemma startswith_spec (p s : string) :
  PathUtils.startswith s p = true ↔ ∃ r, s = p +:+ r.
Proof.
  unfold PathUtils.startswith. revert s.
  induction p as [|a p IH]; intros s.
  - split; [intros _; by exists s | intros _; by destruct s].
  - destruct s as [|b s]; simpl.
    + split; [done|]. intros [r Hr]. by rewrite append_String in Hr.
    + destruct (Ascii.ascii_dec a b) as [->|Hne].
      * rewrite IH. split; intros [r Hr]; exists r.
        -- by rewrite append_String, Hr.
        -- rewrite append_String in Hr. by injection Hr.
      * split; [done|]. intros [r Hr]. rewrite append_String in Hr.
        by injection Hr.
Qed.

Lemma endswith_spec (suf s : string) :
  PathUtils.endswith s suf = true ↔ ∃ l, s = l +:+ suf.
Proof.
  induction s as [|a s IH]; cbn [PathUtils.endswith].
  - destruct (String.eqb_spec "" suf) as [<-|Hne]; cbn iota.
    + split; [by exists "" | done].
    + split; [done|]. intros [[|b l] Hl].
      * by rewrite append_empty in Hl.
      * by rewrite append_String in Hl.
  - destruct (String.eqb_spec (String a s) suf) as [<-|Hne]; cbn iota.
    + split; [by exists "" | done].
    + rewrite IH. split.
      * intros [l ->]. by exists (String a l).
      * intros [[|b l] Hl].
        -- by rewrite append_empty in Hl.
        -- rewrite append_String in Hl. injection Hl as _ ->. by exists l.
Qed.

(** X9: [is_dev_mode] is true exactly when some line of [pip freeze]
    starts with [-e] and ends with [egg=flambe]; the order of the lines
    does not matter. *)
Theorem is_dev_mode_iff (x : list string) :
  PathUtils.is_dev_mode x = true ↔ ∃ pkg, pkg ∈ x ∧ editable_flambe pkg.
Proof.
  unfold editable_flambe. induction x as [|pkg x IH]; simpl.
  - split; [done|]. intros (pkg & Hin & _). by apply elem_of_nil in Hin.
  - destruct (PathUtils.startswith pkg "-e") eqn:Hs; simpl.
    + destruct (PathUtils.endswith pkg "egg=flambe") eqn:He.
      * split; [|done]. intros _. exists pkg. split; [left|].
        split; [by apply startswith_spec | by apply endswith_spec].
      * rewrite IH. split.
        -- intros (p & Hin & Hp). exists p. split; [by right|done].
        -- intros (p & Hin & Hp1 & Hp2).
           apply elem_of_cons in Hin as [->|Hin]; [|by exists p].
           apply endswith_spec in Hp2. congruence.
    + rewrite IH. split.
      * intros (p & Hin & Hp). exists p. split; [by right|done].
      * intros (p & Hin & Hp1 & Hp2).
        apply elem_of_cons in Hin as [->|Hin]; [|by exists p].
        apply startswith_spec in Hp1. congruence.
Qed.

Lemma is_dev_mode_existsb (x : list string) :
  PathUtils.is_dev_mode x
  = existsb (λ pkg, PathUtils.startswith pkg "-e"
                    && PathUtils.endswith pkg "egg=flambe") x.
Proof.
  induction x as [|pkg x IH]; simpl; [done|]. rewrite IH.
  by destruct (_ && _).
Qed.

(** X10: [get_flambe_repo_location] returns the absolute path of
    [flambe.__file__] joined with two parent directories when some line
    of [pip freeze] is that of an editable flambe, and raises
    [ValueError] when none is. *)
Theorem get_flambe_repo_location_iff (flambe_file : string)
    (os_path_join : string → list string → string)
    (os_path_abspath : string → string) (x : list string) :
  ((∃ pkg, pkg ∈ x ∧ editable_flambe pkg) →
   PathUtils.get_flambe_repo_location flambe_file os_path_join
     os_path_abspath x
   = PathUtils.Return
       (os_path_abspath (os_path_join flambe_file [".."; ".."])))
  ∧ ((∀ pkg, pkg ∈ x → ¬ editable_flambe pkg) →
     ∃ msg,
       PathUtils.get_flambe_repo_location flambe_file os_path_join
         os_path_abspath x
       = PathUtils.Raise (PathUtils.ValueError msg)).
Proof.
  unfold PathUtils.get_flambe_repo_location, editable_flambe.
  rewrite is_dev_mode_existsb.
  destruct (existsb _ x) eqn:Hex; simpl.
  - split; [done|]. intros Hnone. exfalso.
    apply existsb_exists in Hex as (pkg & Hin & Hp).
    apply andb_prop in Hp as [Hs He].
    apply (Hnone pkg); [by apply list_elem_of_In|].
    split; [by apply startswith_spec | by apply endswith_spec].
  - split; [|by eexists]. intros (pkg & Hin & Hs & He). exfalso.
    apply not_true_iff_false in Hex. apply Hex.
    apply existsb_exists. exists pkg. split; [by apply list_elem_of_In|].
    apply andb_true_intro.
    split; [by apply startswith_spec | by apply endswith_spec].
Qed.

Section FilesFacts.
Variable os_path_exists : string → bool.
Variable os_path_isdir : string → bool.
Variable os_path_islink : string → bool.
Variable os_path_getsize : string → PathUtils.Res Z.
Variable os_walk : string → list (string * list string * list string).
Variable os_path_join : string → string → string.
Variable MB : Z.
Variable Float : Type.
Variable truediv : Z → Z → Float.

(** When the sizes of existing paths can be read, the loop ends with the
    sum of the counted sizes added to its start value. *)
Lemma accum_sizes_sum (fps : list string) :
  (∀ fp, fp ∈ fps → os_path_exists fp = true →
         ∃ n, os_path_getsize fp = PathUtils.Return n) →
  ∀ accum,
    PathUtils.accum_sizes os_path_exists os_path_islink os_path_getsize
      fps accum
    = PathUtils.Return
        (accum + foldr Z.add 0%Z
                   (counted_size os_path_exists os_path_islink
                      os_path_getsize <$> fps))%Z.
Proof.
  induction fps as [|fp fps IH]; intros Hsize accum.
  { simpl. f_equal; lia. }
  rewrite fmap_cons. cbn [foldr PathUtils.accum_sizes].
  assert (Hrest : ∀ a,
            PathUtils.accum_sizes os_path_exists os_path_islink
              os_path_getsize fps a
            = PathUtils.Return
                (a + foldr Z.add 0%Z
                       (counted_size os_path_exists os_path_islink
                          os_path_getsize <$> fps))%Z).
  { apply IH. intros fp' Hin. apply Hsize. by right. }
  unfold counted_size at 1.
  destruct (os_path_exists fp && negb (os_path_islink fp)) eqn:Hc.
  - apply andb_prop in Hc as [Hex _].
    destruct (Hsize fp) as [n Hn]; [by left|done|]. rewrite Hn, Hrest.
    f_equal; lia.
  - rewrite Hrest. f_equal; lia.
Qed.

(** The loop raises only what [os.path.getsize] raises. *)
Lemma accum_sizes_error (fps : list string) :
  ∀ accum e,
    PathUtils.accum_sizes os_path_exists os_path_islink os_path_getsize
      fps accum = PathUtils.Raise e →
    ∃ fp, fp ∈ fps ∧ os_path_getsize fp = PathUtils.Raise e.
Proof.
  induction fps as [|fp fps IH]; intros accum e; simpl; [done|].
  destruct (os_path_exists fp && negb (os_path_islink fp)).
  - destruct (os_path_getsize fp) as [n|e'] eqn:Hn.
    + intros (fp' & Hin & He)%IH. exists fp'. split; [by right|done].
    + intros [= ->]. exists fp. split; [by left|done].
  - intros (fp' & Hin & He)%IH. exists fp'. split; [by right|done].
Qed.

(** X11: for a directory, when the size of every existing path can be
    read, [get_size_MB] raises nothing and returns, divided by [MB], the
    sum of the sizes of the files that [os.walk] lists, leaving out those
    that no longer exist and the symbolic links; directories are not
    counted. *)
Theorem get_size_MB_directory (path : string) :
  os_path_isdir path = true →
  os_path_exists path = true →
  (∀ fp, os_path_exists fp = true →
         ∃ n, os_path_getsize fp = PathUtils.Return n) →
  PathUtils.get_size_MB os_path_exists os_path_isdir os_path_islink
    os_path_getsize os_walk os_path_join MB Float truediv path
  = PathUtils.Return
      (truediv
         (foldr Z.add 0%Z
            (counted_size os_path_exists os_path_islink os_path_getsize
               <$> ('(dirpath, dirnames, filenames) ← os_walk path;
                    os_path_join dirpath <$> filenames)))
         MB).
Proof.
  intros Hdir Hex Hsize.
  unfold PathUtils.get_size_MB, PathUtils.get_files. rewrite Hdir, Hex.
  simpl. rewrite accum_sizes_sum by (intros; by apply Hsize). done.
Qed.

(** X12: the [ValueError] of [get_files] never leaves [get_size_MB]: when
    directories exist and [os.path.getsize] raises no [ValueError],
    neither does [get_size_MB], on any path. *)
Theorem get_size_MB_no_ValueError (path msg : string) :
  (∀ p, os_path_isdir p = true → os_path_exists p = true) →
  (∀ p m, os_path_getsize p ≠ PathUtils.Raise (PathUtils.ValueError m)) →
  PathUtils.get_size_MB os_path_exists os_path_isdir os_path_islink
    os_path_getsize os_walk os_path_join MB Float truediv path
  ≠ PathUtils.Raise (PathUtils.ValueError msg).
Proof.
  intros Hdir Hsize. unfold PathUtils.get_size_MB, PathUtils.get_files.
  destruct (os_path_isdir path) eqn:Hd.
  - rewrite (Hdir path Hd). simpl.
    destruct (PathUtils.accum_sizes _ _ _ _ _) as [n|e] eqn:Hacc; [done|].
    apply accum_sizes_error in Hacc as (fp & _ & Hfp).
    intros [= ->]. by apply (Hsize fp msg).
  - destruct (os_path_getsize path) as [n|e] eqn:Hn; [done|].
    intros [= ->]. by apply (Hsize path msg).
Qed.

Variable os_listdir : string → PathUtils.Res (list string).

(** X14: [is_pip_installable] answers [True] exactly for an existing
    folder whose listing succeeds and holds [setup.py] or
    [pyproject.toml]. *)
Theorem is_pip_installable_true (folder : string) :
  PathUtils.is_pip_installable os_path_exists os_listdir folder
  = PathUtils.Return true
  ↔ os_path_exists folder = true
    ∧ ∃ files, os_listdir folder = PathUtils.Return files
               ∧ ("setup.py" ∈ files ∨ "pyproject.toml" ∈ files).
Proof.
  unfold PathUtils.is_pip_installable.
  destruct (os_path_exists folder); simpl.
  - destruct (os_listdir folder) as [files|e].
    + destruct (bool_decide ("setup.py" ∈ files)
                || bool_decide ("pyproject.toml" ∈ files)) eqn:Hb.
      * split; [|done]. intros _. split; [done|]. exists files.
        split; [done|]. apply orb_prop in Hb as [Hb|Hb].
        -- left. by apply (bool_decide_eq_true_1 _).
        -- right. by apply (bool_decide_eq_true_1 _).
      * split; [done|]. intros (_ & files' & [= <-] & Hin).
        apply orb_false_elim in Hb as [Hb1 Hb2].
        apply bool_decide_eq_false_1 in Hb1, Hb2. by destruct Hin.
    + split; [done|]. by intros (_ & files & Hf & _).
  - split; [done|]. by intros [? _].
Qed.
End FilesFacts.

Section SystemReqsFacts.
Variable FS : Type.
Variable os_path_exists : FS → string → bool.
Variable os_path_isdir : FS → string → bool.
Variable os_path_islink : FS → string → bool.
Variable os_path_getsize : FS → string → PathUtils.Res Z.
Variable os_walk : FS → string → list (string * list string * list string).
Variable os_path_join : string → string → string.
Variable os_mkdir : string → FS → PathUtils.Res FS.
Variable FLAMBE_GLOBAL_FOLDER : string.
Variable MB : Z.
Variable Float : Type.
Variable truediv : Z → Z → Float.
Variable gt_WARN_LIMIT_MB : Float → bool.
Variable str_WARN_LIMIT_MB : string.
Variable Fore_YELLOW : string.
Variable Style_RESET_ALL : string.

(** X13: [check_system_reqs] does not touch a file system in which the
    flambe folder exists; and when a directory that [os.mkdir] has made
    exists, a second call does what the first did: the same result, the
    same messages, and the file system as the first call left it. *)
Theorem check_system_reqs_idempotent (fs : FS) :
  (∀ fs0 fs1,
      os_mkdir FLAMBE_GLOBAL_FOLDER fs0 = PathUtils.Return fs1 →
      os_path_exists fs1 FLAMBE_GLOBAL_FOLDER = true) →
  (os_path_exists fs FLAMBE_GLOBAL_FOLDER = true →
   (PathUtils.check_system_reqs FS os_path_exists os_path_isdir
      os_path_islink os_path_getsize os_walk os_path_join os_mkdir
      FLAMBE_GLOBAL_FOLDER MB Float truediv gt_WARN_LIMIT_MB
      str_WARN_LIMIT_MB Fore_YELLOW Style_RESET_ALL fs).1.2 = fs)
  ∧ PathUtils.check_system_reqs FS os_path_exists os_path_isdir
      os_path_islink os_path_getsize os_walk os_path_join os_mkdir
      FLAMBE_GLOBAL_FOLDER MB Float truediv gt_WARN_LIMIT_MB
      str_WARN_LIMIT_MB Fore_YELLOW Style_RESET_ALL
      (PathUtils.check_system_reqs FS os_path_exists os_path_isdir
         os_path_islink os_path_getsize os_walk os_path_join os_mkdir
         FLAMBE_GLOBAL_FOLDER MB Float truediv gt_WARN_LIMIT_MB
         str_WARN_LIMIT_MB Fore_YELLOW Style_RESET_ALL fs).1.2
    = PathUtils.check_system_reqs FS os_path_exists os_path_isdir
        os_path_islink os_path_getsize os_walk os_path_join os_mkdir
        FLAMBE_GLOBAL_FOLDER MB Float truediv gt_WARN_LIMIT_MB
        str_WARN_LIMIT_MB Fore_YELLOW Style_RESET_ALL fs.
Proof.
  intros Hmk.
  assert (Hrest : ∀ fs1,
            os_path_exists fs1 FLAMBE_GLOBAL_FOLDER = true →
            (PathUtils.check_system_reqs FS os_path_exists os_path_isdir
               os_path_islink os_path_getsize os_walk os_path_join os_mkdir
               FLAMBE_GLOBAL_FOLDER MB Float truediv gt_WARN_LIMIT_MB
               str_WARN_LIMIT_MB Fore_YELLOW Style_RESET_ALL fs1).1.2 = fs1).
  { intros fs1 Hex. unfold PathUtils.check_system_reqs. rewrite Hex.
    cbn [negb]. cbv zeta.
    destruct (os_path_exists fs1
                (os_path_join FLAMBE_GLOBAL_FOLDER "extensions")); [|done].
    destruct (PathUtils.get_size_MB _ _ _ _ _ _ _ _ _ _) as [size|e]; [|done].
    by destruct (gt_WARN_LIMIT_MB size). }
  split; [by apply Hrest|].
  destruct (os_path_exists fs FLAMBE_GLOBAL_FOLDER) eqn:Hex.
  { by rewrite Hrest. }
  destruct (os_mkdir FLAMBE_GLOBAL_FOLDER fs) as [fs1|e] eqn:Hm.
  - pose proof (Hmk fs fs1 Hm) as Hex1.
    assert (Heq : PathUtils.check_system_reqs FS os_path_exists os_path_isdir
               os_path_islink os_path_getsize os_walk os_path_join os_mkdir
               FLAMBE_GLOBAL_FOLDER MB Float truediv gt_WARN_LIMIT_MB
               str_WARN_LIMIT_MB Fore_YELLOW Style_RESET_ALL fs
             = PathUtils.check_system_reqs FS os_path_exists os_path_isdir
               os_path_islink os_path_getsize os_walk os_path_join os_mkdir
               FLAMBE_GLOBAL_FOLDER MB Float truediv gt_WARN_LIMIT_MB
               str_WARN_LIMIT_MB Fore_YELLOW Style_RESET_ALL fs1).
    { unfold PathUtils.check_system_reqs. rewrite Hex, Hex1, Hm. done. }
    rewrite Heq. by rewrite Hrest.
  - assert (Heq : (PathUtils.check_system_reqs FS os_path_exists os_path_isdir
               os_path_islink os_path_getsize os_walk os_path_join os_mkdir
               FLAMBE_GLOBAL_FOLDER MB Float truediv gt_WARN_LIMIT_MB
               str_WARN_LIMIT_MB Fore_YELLOW Style_RESET_ALL fs).1.2 = fs).
    { unfold PathUtils.check_system_reqs. by rewrite Hex, Hm. }
    by rewrite Heq.
Qed.
End SystemReqsFacts.

(** X11 at a directory with the files [a] and [b], of which [b] is a
    link, and a sub-directory. *)
Lemma get_size_MB_directory_witness :
  PathUtils.get_size_MB (λ _, true) (λ p, bool_decide (p = "/d"))
    (λ p, bool_decide (p = "/d/b")) (λ _, PathUtils.Return 3%Z)
    (λ _, [("/d", ["sub"], ["a"; "b"])]) (λ a b, a +:+ "/" +:+ b)
    1048576%Z (Z * Z)%type (λ n m, (n, m)) "/d"
  = PathUtils.Return
      ((λ n m : Z, (n, m))
         (foldr Z.add 0%Z
            (counted_size (λ _, true) (λ p, bool_decide (p = "/d/b"))
               (λ _, PathUtils.Return 3%Z)
               <$> ('(dirpath, dirnames, filenames)
                      ← [("/d", ["sub"], ["a"; "b"])];
                    (λ b, dirpath +:+ "/" +:+ b) <$> filenames)))
         1048576%Z).
Proof.
  apply (get_size_MB_directory (λ _, true) (λ p, bool_decide (p = "/d"))
           (λ p, bool_decide (p = "/d/b")) (λ _, PathUtils.Return 3%Z)
           (λ _, [("/d", ["sub"], ["a"; "b"])]) (λ a b, a +:+ "/" +:+ b)
           1048576%Z (Z * Z)%type (λ n m, (n, m)) "/d").
  - reflexivity.
  - reflexivity.
  - intros fp _. by exists 3%Z.
Defined.

(** X12 on a file system where no size can be read. *)
Lemma get_size_MB_no_ValueError_witness :
  PathUtils.get_size_MB (λ _, true) (λ p, bool_decide (p = "/d"))
    (λ _, false) (λ p, PathUtils.Raise (PathUtils.OSError p))
    (λ _, [("/d", [], ["a"])]) (λ a b, a +:+ "/" +:+ b)
    1048576%Z (Z * Z)%type (λ n m, (n, m)) "/d"
  ≠ PathUtils.Raise (PathUtils.ValueError "/d does not exist").
Proof.
  apply (get_size_MB_no_ValueError (λ _, true) (λ p, bool_decide (p = "/d"))
           (λ _, false) (λ p, PathUtils.Raise (PathUtils.OSError p))
           (λ _, [("/d", [], ["a"])]) (λ a b, a +:+ "/" +:+ b)
           1048576%Z (Z * Z)%type (λ n m, (n, m)) "/d" "/d does not exist").
  - intros p _. reflexivity.
  - intros p m. discriminate.
Defined.

(** X13 on a file system given by the directories that exist, without
    the flambe folder. *)
Lemma check_system_reqs_idempotent_witness :
  (bool_decide ("/home/.flambe" ∈ @nil string) = true →
   (PathUtils.check_system_reqs (list string)
      (λ fs p, bool_decide (p ∈ fs)) (λ fs p, bool_decide (p ∈ fs))
      (λ _ _, false) (λ _ _, PathUtils.Return 0%Z) (λ _ _, [])
      (λ a b, a +:+ "/" +:+ b) (λ p fs, PathUtils.Return (p :: fs))
      "/home/.flambe" 1048576%Z (Z * Z)%type (λ n m, (n, m))
      (λ _, false) "100" "" "" []).1.2 = [])
  ∧ PathUtils.check_system_reqs (list string)
      (λ fs p, bool_decide (p ∈ fs)) (λ fs p, bool_decide (p ∈ fs))
      (λ _ _, false) (λ _ _, PathUtils.Return 0%Z) (λ _ _, [])
      (λ a b, a +:+ "/" +:+ b) (λ p fs, PathUtils.Return (p :: fs))
      "/home/.flambe" 1048576%Z (Z * Z)%type (λ n m, (n, m))
      (λ _, false) "100" "" ""
      (PathUtils.check_system_reqs (list string)
         (λ fs p, bool_decide (p ∈ fs)) (λ fs p, bool_decide (p ∈ fs))
         (λ _ _, false) (λ _ _, PathUtils.Return 0%Z) (λ _ _, [])
         (λ a b, a +:+ "/" +:+ b) (λ p fs, PathUtils.Return (p :: fs))
         "/home/.flambe" 1048576%Z (Z * Z)%type (λ n m, (n, m))
         (λ _, false) "100" "" "" []).1.2
    = PathUtils.check_system_reqs (list string)
        (λ fs p, bool_decide (p ∈ fs)) (λ fs p, bool_decide (p ∈ fs))
        (λ _ _, false) (λ _ _, PathUtils.Return 0%Z) (λ _ _, [])
        (λ a b, a +:+ "/" +:+ b) (λ p fs, PathUtils.Return (p :: fs))
        "/home/.flambe" 1048576%Z (Z * Z)%type (λ n m, (n, m))
        (λ _, false) "100" "" "" [].
Proof.
  apply (check_system_reqs_idempotent (list string)
           (λ fs p, bool_decide (p ∈ fs)) (λ fs p, bool_decide (p ∈ fs))
           (λ _ _, false) (λ _ _, PathUtils.Return 0%Z) (λ _ _, [])
           (λ a b, a +:+ "/" +:+ b) (λ p fs, PathUtils.Return (p :: fs))
           "/home/.flambe" 1048576%Z (Z * Z)%type (λ n m, (n, m))
           (λ _, false) "100" "" "" []).
  intros fs0 fs1 [= <-]. apply bool_decide_eq_true_2. left.
Defined.
